(** * The broker service of emitter: cluster events, lifecycle and shutdown

    A shallow embedding of [broker/service.go].  The methods of [*Service]
    become computations in a small monad [Go] that threads the service
    object, records every call into a collaborator package (logging, serf,
    the listeners, the signal package, ...) in a trace, and ends in a normal
    return, a panic or a process exit.  What the collaborators answer is a
    parameter of the development ([Collaborators]). *)

From Stdlib Require Import ZArith String List DecimalString.
From stdpp Require Import base option gmap strings list.

Local Open Scope Z_scope.
Local Open Scope string_scope.

(** ** Values shared by the packages *)

(** A byte buffer ([[]byte]). *)
Abbreviation bytes := (list Byte.byte).

(** A Go [error] value; [nil] is [None] in [option error]. *)
Inductive error := errorString (msg : string).

(** [errors.New]. *)
Definition errors_New (msg : string) : error := errorString msg.

#[global] Instance error_eq_dec : EqDecision error.
Proof. solve_decision. Defined.

(** [%d] of a Go [int]: decimal digits, with a minus sign when negative. *)
Definition itoa (n : Z) : string := NilZero.string_of_int (Z.to_int n).

(** [fmt.Sprintf("%s%d", a, n)]. *)
Definition Sprintf_s_d (a : string) (n : Z) : string := a +:+ itoa n.

(** [fmt.Sprintf("%s:%d", a, n)]. *)
Definition Sprintf_s_colon_d (a : string) (n : Z) : string :=
  a +:+ ":" +:+ itoa n.

(** ** package config: the fields of the configuration the service reads *)
Module config.

(** The cluster block, [*config.ClusterConfig]. [Key] stands for the result
    of the method [Key()]. *)
Record ClusterConfig := {
  Seed : string;
  Gossip : Z;
  Route : Z;
  AdvertiseAddr : string;
  Key : bytes;
  NodeName : string;
  SnapshotPath : string
}.

(** [config.Config]; [Cluster] is a pointer, [None] when nil. *)
Record Config := {
  License : string;
  TCPPort : Z;
  Cluster : option ClusterConfig
}.

End config.

(** ** package memberlist *)
Module memberlist.

Record Config := {
  BindPort : Z;
  AdvertisePort : Z;
  AdvertiseAddr : string;
  SecretKey : bytes
}.

Definition set_BindPort (p : Z) (c : Config) : Config :=
  {| BindPort := p; AdvertisePort := AdvertisePort c;
     AdvertiseAddr := AdvertiseAddr c; SecretKey := SecretKey c |}.

Definition set_AdvertisePort (p : Z) (c : Config) : Config :=
  {| BindPort := BindPort c; AdvertisePort := p;
     AdvertiseAddr := AdvertiseAddr c; SecretKey := SecretKey c |}.

Definition set_AdvertiseAddr (a : string) (c : Config) : Config :=
  {| BindPort := BindPort c; AdvertisePort := AdvertisePort c;
     AdvertiseAddr := a; SecretKey := SecretKey c |}.

Definition set_SecretKey (k : bytes) (c : Config) : Config :=
  {| BindPort := BindPort c; AdvertisePort := AdvertisePort c;
     AdvertiseAddr := AdvertiseAddr c; SecretKey := k |}.

End memberlist.

(** ** package serf *)
Module serf.

(** [serf.Config], the fields [clusterConfig] writes. [EventCh] is always
    the one event channel of the service and is not recorded. [Tags] is a
    Go map: [None] is the nil map, which can be read but not written. *)
Record Config := {
  RejoinAfterLeave : bool;
  NodeName : string;
  SnapshotPath : string;
  MemberlistConfig : memberlist.Config;
  Tags : option (gmap string string)
}.

Definition set_RejoinAfterLeave (b : bool) (c : Config) : Config :=
  {| RejoinAfterLeave := b; NodeName := NodeName c;
     SnapshotPath := SnapshotPath c;
     MemberlistConfig := MemberlistConfig c; Tags := Tags c |}.

Definition set_NodeName (n : string) (c : Config) : Config :=
  {| RejoinAfterLeave := RejoinAfterLeave c; NodeName := n;
     SnapshotPath := SnapshotPath c;
     MemberlistConfig := MemberlistConfig c; Tags := Tags c |}.

Definition set_SnapshotPath (p : string) (c : Config) : Config :=
  {| RejoinAfterLeave := RejoinAfterLeave c; NodeName := NodeName c;
     SnapshotPath := p;
     MemberlistConfig := MemberlistConfig c; Tags := Tags c |}.

Definition set_MemberlistConfig (m : memberlist.Config) (c : Config) : Config :=
  {| RejoinAfterLeave := RejoinAfterLeave c; NodeName := NodeName c;
     SnapshotPath := SnapshotPath c;
     MemberlistConfig := m; Tags := Tags c |}.

Definition set_Tags (tags : option (gmap string string)) (c : Config) : Config :=
  {| RejoinAfterLeave := RejoinAfterLeave c; NodeName := NodeName c;
     SnapshotPath := SnapshotPath c;
     MemberlistConfig := MemberlistConfig c; Tags := tags |}.

Inductive EventType :=
| EventMemberJoin | EventMemberLeave | EventMemberFailed
| EventMemberUpdate | EventMemberReap | EventUser | EventQuery.

#[global] Instance EventType_eq_dec : EqDecision EventType.
Proof. solve_decision. Defined.

(** [serf.UserEvent]. *)
Record UserEvent := {
  LTime : Z;
  Name : string;
  Payload : bytes;
  Coalesce : bool
}.

(** The values of the interface [serf.Event] by dynamic type. *)
Inductive Event :=
| MemberEvent (ty : EventType)
| User (u : UserEvent)
| Query (name : string) (payload : bytes).

Definition Event_EventType (e : Event) : EventType :=
  match e with
  | MemberEvent ty => ty
  | User _ => EventUser
  | Query _ _ => EventQuery
  end.

(** A handle [*serf.Serf], as returned by [serf.Create]. *)
Record Serf := { conf : Config }.

End serf.

(** ** Types of package broker that live outside [service.go] *)

(** Modelled from the spec: the record [SubscriptionEvent] is declared in
    another file of the package; [service.go] reads only its field [Node].
    The spec gives it the two fields topic and origin node. *)
Record SubscriptionEvent := {
  Topic : string;
  Node : string
}.

(** The zero value a [var event SubscriptionEvent] starts with. *)
Definition SubscriptionEvent_zero : SubscriptionEvent :=
  {| Topic := ""; Node := "" |}.

(** Modelled from the spec: the topic-matching structure [SubscriptionTrie]
    is declared in another file of the package. The spec gives it entries
    keyed by (topic, origin node) with the operations insert and remove. *)
Abbreviation SubscriptionTrie := (gset (string * string)).

Definition NewSubscriptionTrie : SubscriptionTrie := ∅.

Definition trie_insert (topic origin : string) (t : SubscriptionTrie)
  : SubscriptionTrie := {[ (topic, origin) ]} ∪ t.

Definition trie_remove (topic origin : string) (t : SubscriptionTrie)
  : SubscriptionTrie := t ∖ {[ (topic, origin) ]}.

(** ** Signals *)

(** An [os.Signal] whose dynamic type is [syscall.Signal], by number. *)
Inductive Signal := syscall_Signal (n : Z).

#[global] Instance Signal_eq_dec : EqDecision Signal.
Proof. solve_decision. Defined.

Definition SIGINT : Signal := syscall_Signal 2.
Definition SIGTERM : Signal := syscall_Signal 15.

(** ** The service object *)

(** The state of the channel [Closing]: nothing is ever sent on it, it is
    only closed. *)
Inductive ChanState := ChanOpen | ChanClosed.

(** [Service], with the fields the methods of [service.go] read or write
    after construction. [events] is the stream the event loop consumes
    (see [clusterEventLoop]). *)
Record Service := {
  Closing : ChanState;
  Config : config.Config;
  subscriptions : SubscriptionTrie;
  cluster : option serf.Serf;
  name : string
}.

Definition set_Closing (c : ChanState) (s : Service) : Service :=
  {| Closing := c; Config := Config s; subscriptions := subscriptions s;
     cluster := cluster s; name := name s |}.

Definition set_cluster (c : option serf.Serf) (s : Service) : Service :=
  {| Closing := Closing s; Config := Config s;
     subscriptions := subscriptions s; cluster := c; name := name s |}.

Definition set_name (n : string) (s : Service) : Service :=
  {| Closing := Closing s; Config := Config s;
     subscriptions := subscriptions s; cluster := cluster s; name := n |}.

(** ** Observable calls *)

(** The background units started with [go]. *)
Inductive Goroutine :=
| go_clusterEventLoop
| go_signalLoop
| go_membersReporter
| go_connProcess.

Inductive Matcher := MatchHTTP | MatchAny.
Inductive Server := http_Serve | tcp_Serve.

(** One entry per call that leaves the package, in program order. *)
Inductive Effect :=
| logging_LogAction (ctx msg : string)
| logging_LogError (ctx action : string) (err : error)
| logging_Flush
| fmt_Printf_v (event : SubscriptionEvent)
| signal_Notify (sigs : list Signal)
| go (g : Goroutine)
| serf_Create (c : serf.Config)
| serf_Join (existing : list string) (ignoreOld : bool)
| serf_Leave
| serf_Shutdown
| serf_UserEvent (name : string) (payload : bytes) (coalesce : bool)
| tcp_ServeAsync (port : Z)
| listener_New (port : Z)
| listener_ServeAsync (m : Matcher) (srv : Server)
| listener_Serve
| close_Closing.

(** What a panic carries. *)
Inductive PanicValue :=
| panic_error (err : error)
| nil_dereference
| close_of_closed_channel
| type_assertion
| assignment_to_nil_map
| multiple_registrations (pattern : string).

(** How a call ends. *)
Inductive Outcome (A : Type) :=
| Returned (a : A)
| Panicked (p : PanicValue)
| Exited (code : Z).
Arguments Returned {A} a.
Arguments Panicked {A} p.
Arguments Exited {A} code.

Record Run (A : Type) := {
  trace : list Effect;
  final : Service;
  outcome : Outcome A
}.
Arguments trace {A} r.
Arguments final {A} r.
Arguments outcome {A} r.

(** ** The monad *)
Definition Go (A : Type) : Type := Service → Run A.

#[global] Instance Go_ret : MRet Go := λ A a s,
  {| trace := []; final := s; outcome := Returned a |}.

#[global] Instance Go_bind : MBind Go := λ A B k m s,
  let r := m s in
  match outcome r with
  | Returned a =>
      let r' := k a (final r) in
      {| trace := trace r ++ trace r'; final := final r';
         outcome := outcome r' |}
  | Panicked p => {| trace := trace r; final := final r; outcome := Panicked p |}
  | Exited c => {| trace := trace r; final := final r; outcome := Exited c |}
  end.

Definition emit (e : Effect) : Go unit := λ s,
  {| trace := [e]; final := s; outcome := Returned tt |}.

Definition panic {A} (p : PanicValue) : Go A := λ s,
  {| trace := []; final := s; outcome := Panicked p |}.

(** [os.Exit]. *)
Definition os_Exit {A} (code : Z) : Go A := λ s,
  {| trace := []; final := s; outcome := Exited code |}.

Definition get : Go Service := λ s,
  {| trace := []; final := s; outcome := Returned s |}.

Definition modify (f : Service → Service) : Go unit := λ s,
  {| trace := []; final := f s; outcome := Returned tt |}.

(** [defer d] around the body [m]: [d] runs when [m] returns and when it
    panics (a panic of [d] replaces the one in flight); a process exit runs
    no deferred call. *)
Definition defer {A} (d : Go unit) (m : Go A) : Go A := λ s,
  let r := m s in
  match outcome r with
  | Exited c => r
  | Returned _ | Panicked _ =>
      let r' := d (final r) in
      {| trace := trace r ++ trace r'; final := final r';
         outcome := match outcome r' with
                    | Returned _ => outcome r
                    | Panicked p => Panicked p
                    | Exited c => Exited c
                    end |}
  end.

(** [close(s.Closing)]: closing a closed channel panics. *)
Definition close_chan : Go unit := λ s,
  match Closing s with
  | ChanOpen =>
      {| trace := [close_Closing]; final := set_Closing ChanClosed s;
         outcome := Returned tt |}
  | ChanClosed =>
      {| trace := []; final := s; outcome := Panicked close_of_closed_channel |}
  end.

(** ** The collaborators *)

(** What the packages outside [service.go] answer. Each field stands for
    the function of that name; the calls themselves are recorded in the
    trace by the methods below. *)
Record Collaborators := {
  (** [address.Fingerprint()] *)
  address_Fingerprint : string;
  (** [address.External().String()] *)
  address_External : string;
  (** the values passed as [message interface{}] *)
  Message : Type;
  (** [encoding.Encode(message)] *)
  encoding_Encode : Message → bytes * option error;
  (** [encoding.Decode(payload, &event)]: the record as the decoder leaves
      it, and the error it returns *)
  encoding_Decode : bytes → SubscriptionEvent → SubscriptionEvent * option error;
  (** [serf.DefaultConfig()]; the serf library leaves [Tags] nil there
      and allocates it in [serf.Create] *)
  serf_DefaultConfig : serf.Config;
  (** [memberlist.DefaultWANConfig()] *)
  memberlist_DefaultWANConfig : memberlist.Config;
  (** the error of [serf.Create(c)] *)
  Create_result : serf.Config → option error;
  (** the results of [Join(existing, ignoreOld)] on the handle *)
  Join_result : list string → bool → Z * option error;
  (** the error of [UserEvent(name, payload, coalesce)] on the handle *)
  UserEvent_result : string → bytes → bool → option error;
  (** the error of [tcp.ServeAsync(port, closing, handler)] *)
  ServeAsync_result : Z → option error;
  (** the error of [listener.New(port)] *)
  listener_New_result : Z → option error;
  (** [sig.String()] *)
  Signal_String : Signal → string
}.

Section Broker.

Variable env : Collaborators.

(** *** [clusterConfig] *)

(** Creates a configuration for the cluster. Dereferencing [cfg.Cluster]
    panics when the block is nil, and so does the write [c.Tags["route"]]
    when the map of the default configuration is nil. *)
Definition clusterConfig (cfg : config.Config) : Go serf.Config :=
  match config.Cluster cfg with
  | None => panic nil_dereference
  | Some cl =>
      let c := serf_DefaultConfig env in
      let c := serf.set_RejoinAfterLeave true c in
      let c := serf.set_NodeName (address_Fingerprint env) c in
      let c := serf.set_SnapshotPath (config.SnapshotPath cl) c in
      let c := serf.set_MemberlistConfig (memberlist_DefaultWANConfig env) c in
      let c := serf.set_MemberlistConfig
                 (memberlist.set_BindPort (config.Gossip cl)
                    (serf.MemberlistConfig c)) c in
      let c := serf.set_MemberlistConfig
                 (memberlist.set_AdvertisePort (config.Gossip cl)
                    (serf.MemberlistConfig c)) c in
      let c := serf.set_MemberlistConfig
                 (memberlist.set_SecretKey (config.Key cl)
                    (serf.MemberlistConfig c)) c in
      (* Set the node name *)
      let c := serf.set_NodeName (config.NodeName cl) c in
      let c := if decide (serf.NodeName c = "")
               then serf.set_NodeName
                      (Sprintf_s_d (address_Fingerprint env) (config.Gossip cl)) c
               else c in
      modify (set_name (serf.NodeName c)) ;;
      (* Use the public IP address if necessary *)
      let c := if decide (config.AdvertiseAddr cl = "public")
               then serf.set_MemberlistConfig
                      (memberlist.set_AdvertiseAddr (address_External env)
                         (serf.MemberlistConfig c)) c
               else c in
      (* Configure routing *)
      let route := Sprintf_s_colon_d
                     (memberlist.AdvertiseAddr (serf.MemberlistConfig c))
                     (config.Route cl) in
      match serf.Tags c with
      | None => panic assignment_to_nil_map
      | Some tags => mret (serf.set_Tags (Some (<["route":=route]> tags)) c)
      end
  end.

(** *** [Name] *)

(** Returns the local service name. *)
Definition Name (s : Service) : string := name s.

(** *** [Close] *)

(** Closes gracefully the service. The results of [Flush], [Leave] and
    [Shutdown] are discarded. *)
Definition Close : Go unit :=
  emit logging_Flush ;;
  s ← get;
  (match cluster s with
   | Some _ => emit serf_Leave ;; emit serf_Shutdown
   | None => mret tt
   end) ;;
  close_chan.

(** *** [onEvent] *)

(** The body shared, word for word, by the cases ["+"] and ["-"]: decode
    into a zero record, discard the decoder's error, print the record when
    its node is not the local one. *)
Definition onSubscriptionEvent (e : serf.UserEvent) : Go unit :=
  let event := fst (encoding_Decode env (serf.Payload e) SubscriptionEvent_zero) in
  s ← get;
  if decide (Node event ≠ Name s)
  then emit (fmt_Printf_v event)
  else mret tt.

(** Occurs when a new cluster event is received. *)
Definition onEvent (e : serf.UserEvent) : Go (option error) :=
  if decide (serf.Name e = "+") then
    onSubscriptionEvent e ;; mret None
  else if decide (serf.Name e = "-") then
    onSubscriptionEvent e ;; mret None
  else
    mret (Some (errors_New ("received unknown event name: " +:+ serf.Name e))).

(** *** [clusterEventLoop] *)

(** The communication a [select] of the event loop proceeds with. The
    runtime picks [recv_Closing] only once the channel is closed. *)
Inductive Selected :=
| recv_Closing
| recv_events (e : serf.Event).

Inductive LoopStatus :=
| LoopReturned
| LoopBlocked.

(** One pass through the body of the [case e := <-s.events]. *)
Definition handleEvent (e : serf.Event) : Go unit :=
  if decide (serf.Event_EventType e = serf.EventUser) then
    match e with
    | serf.User event =>
        err ← onEvent event;
        match err with
        | Some err => emit (logging_LogError "service" "event received" err)
        | None => mret tt
        end
    | _ => panic type_assertion
    end
  else mret tt.

(** Listens to incoming cluster events, along the communications the
    [select] proceeds with; when they run out the loop is blocked in the
    [select]. *)
Fixpoint clusterEventLoop (sched : list Selected) : Go LoopStatus :=
  match sched with
  | [] => mret LoopBlocked
  | recv_Closing :: _ => mret LoopReturned
  | recv_events e :: rest => handleEvent e ;; clusterEventLoop rest
  end.

(** *** Calls on the handle [s.cluster] *)

(** [s.cluster.Join(existing, ignoreOld)]; the methods of the handle read
    its fields, so a nil handle panics. *)
Definition cluster_Join (existing : list string) (ignoreOld : bool)
  : Go (Z * option error) :=
  s ← get;
  match cluster s with
  | None => panic nil_dereference
  | Some _ =>
      emit (serf_Join existing ignoreOld) ;;
      mret (Join_result env existing ignoreOld)
  end.

(** [s.cluster.UserEvent(name, payload, coalesce)]. *)
Definition cluster_UserEvent (name : string) (payload : bytes) (coalesce : bool)
  : Go (option error) :=
  s ← get;
  match cluster s with
  | None => panic nil_dereference
  | Some _ =>
      emit (serf_UserEvent name payload coalesce) ;;
      mret (UserEvent_result env name payload coalesce)
  end.

(** *** [Join] *)

(** Attempts to join a set of existing peers. *)
Definition Join (peers : list string) : Go (option error) :=
  r ← cluster_Join peers true;
  mret (snd r).

(** *** [Broadcast] *)

(** Broadcasts a custom user event with a given name and payload. *)
Definition Broadcast (name : string) (message : Message env) : Go (option error) :=
  let (buffer, err) := encoding_Encode env message in
  match err with
  | Some err => mret (Some err)
  | None => cluster_UserEvent name buffer true
  end.

(** *** [hookSignals] and [OnSignal] *)

Definition hookSignals : Go unit :=
  emit (signal_Notify [SIGINT; SIGTERM]) ;;
  emit (go go_signalLoop).

(** The body the cases [SIGTERM] (by [fallthrough]) and [SIGINT] run. *)
Definition onTermination (sig : Signal) : Go unit :=
  emit (logging_LogAction "service"
          ("received signal " +:+ Signal_String env sig +:+ ", exiting...")) ;;
  Close ;;
  os_Exit 0.

(** Called when an OS-level signal is received. The [switch] has no
    [default]. *)
Definition OnSignal (sig : Signal) : Go unit :=
  if decide (sig = SIGTERM) then onTermination sig
  else if decide (sig = SIGINT) then onTermination sig
  else mret tt.

(** *** [Listen] *)

(** The block [if s.Config.Cluster != nil { ... }]; [Some err] when it
    leaves [Listen] through [return err]. *)
Definition createCluster : Go (option error) :=
  s ← get;
  match config.Cluster (Config s) with
  | None => mret None
  | Some cl =>
      c ← clusterConfig (Config s);
      emit (serf_Create c) ;;
      match Create_result env c with
      | Some err => modify (set_cluster None) ;; mret (Some err)
      | None =>
          modify (set_cluster (Some {| serf.conf := c |})) ;;
          (* Listen on cluster event loop *)
          emit (go go_clusterEventLoop) ;;
          emit (tcp_ServeAsync (config.Route cl)) ;;
          match ServeAsync_result env (config.Route cl) with
          | Some err => panic (panic_error err)
          | None => mret None
          end
      end
  end.

(** What follows the block: joining the seed, the members reporter and the
    client-facing listener. [s.Config.Cluster.Seed] dereferences the
    cluster block. *)
Definition serve : Go (option error) :=
  s ← get;
  seed ← match config.Cluster (Config s) with
         | None => panic nil_dereference
         | Some cl => mret (config.Seed cl)
         end;
  (* Join our seed *)
  Join [seed] ;;
  emit (go go_membersReporter) ;;
  (* Setup the HTTP server *)
  emit (logging_LogAction "service" "starting the listener...") ;;
  emit (listener_New (config.TCPPort (Config s))) ;;
  match listener_New_result env (config.TCPPort (Config s)) with
  | Some err => panic (panic_error err)
  | None =>
      emit (listener_ServeAsync MatchHTTP http_Serve) ;;
      emit (listener_ServeAsync MatchAny tcp_Serve) ;;
      (* Serve the listener; err is nil at the test that follows *)
      emit listener_Serve ;;
      mret None
  end.

(** Starts the service. *)
Definition Listen : Go (option error) :=
  defer Close
    (hookSignals ;;
     r ← createCluster;
     match r with
     | Some err => mret (Some err)
     | None => serve
     end).

End Broker.

(** ** A concrete cluster of two nodes *)

(** The instances below fix every collaborator, so that the methods can be
    run on concrete services. *)
Module Examples.

(** A small wire format for [SubscriptionEvent]: the topic, a zero byte,
    the node. *)
Fixpoint split_zero (b : bytes) : option (bytes * bytes) :=
  match b with
  | [] => None
  | x :: rest =>
      if Byte.eqb x Byte.x00 then Some ([], rest)
      else match split_zero rest with
           | Some (l, r) => Some (x :: l, r)
           | None => None
           end
  end.

Definition has_zero (b : bytes) : bool := existsb (Byte.eqb Byte.x00) b.

Definition encode (ev : SubscriptionEvent) : bytes * option error :=
  if has_zero (list_byte_of_string (Topic ev))
  then ([], Some (errorString "topic holds the separator"))
  else ((list_byte_of_string (Topic ev)
          ++ Byte.x00 :: list_byte_of_string (Node ev))%list,
        None).

Definition decode (payload : bytes) (ev : SubscriptionEvent)
  : SubscriptionEvent * option error :=
  match split_zero payload with
  | Some (t, n) =>
      ({| Topic := string_of_list_byte t; Node := string_of_list_byte n |}, None)
  | None => (ev, Some (errorString "malformed payload"))
  end.

Definition wan : memberlist.Config :=
  {| memberlist.BindPort := 7946; memberlist.AdvertisePort := 7946;
     memberlist.AdvertiseAddr := ""; memberlist.SecretKey := [] |}.

Definition defaults : serf.Config :=
  {| serf.RejoinAfterLeave := false; serf.NodeName := "host";
     serf.SnapshotPath := ""; serf.MemberlistConfig := wan;
     serf.Tags := None |}.

Definition signal_name (sig : Signal) : string :=
  match sig with
  | syscall_Signal 2 => "interrupt"
  | syscall_Signal 15 => "terminated"
  | syscall_Signal n => "signal " +:+ itoa n
  end.

Definition world : Collaborators :=
  {| address_Fingerprint := "f00d";
     address_External := "203.0.113.7";
     Message := SubscriptionEvent;
     encoding_Encode := encode;
     encoding_Decode := decode;
     serf_DefaultConfig := defaults;
     memberlist_DefaultWANConfig := wan;
     Create_result := λ _, None;
     Join_result := λ _ _, (1, None);
     UserEvent_result := λ _ _ _, None;
     ServeAsync_result := λ _, None;
     listener_New_result := λ _, None;
     Signal_String := signal_name |}.

Definition cluster_block (node : string) : config.ClusterConfig :=
  {| config.Seed := "10.0.0.2:7946"; config.Gossip := 7946;
     config.Route := 5000; config.AdvertiseAddr := "public";
     config.Key := []; config.NodeName := node;
     config.SnapshotPath := "cluster.log" |}.

Definition clustered (node : string) : config.Config :=
  {| config.License := "license";
     config.TCPPort := 8080;
     config.Cluster := Some (cluster_block node) |}.

(** A node with no cluster block, as [NewService] leaves it. *)
Definition standalone : Service :=
  {| Closing := ChanOpen;
     Config := {| config.License := "license"; config.TCPPort := 8080;
                  config.Cluster := None |};
     subscriptions := NewSubscriptionTrie;
     cluster := None;
     name := "" |}.

(** A node of the cluster, after [serf.Create] succeeded. *)
Definition node (n : string) : Service :=
  {| Closing := ChanOpen;
     Config := clustered n;
     subscriptions := NewSubscriptionTrie;
     cluster := Some {| serf.conf := serf.set_NodeName n defaults |};
     name := n |}.

Definition nodeA : Service := node "nodeA".

(** Node B while it holds the entry ([chat/room1], [nodeA]). *)
Definition nodeB_subscribed : Service :=
  {| Closing := ChanOpen;
     Config := clustered "nodeB";
     subscriptions := trie_insert "chat/room1" "nodeA" NewSubscriptionTrie;
     cluster := Some {| serf.conf := serf.set_NodeName "nodeB" defaults |};
     name := "nodeB" |}.
Definition nodeB : Service := node "nodeB".

Definition chat_room1 : SubscriptionEvent :=
  {| Topic := "chat/room1"; Node := "nodeA" |}.

(** The user event the cluster delivers for a broadcast of [chat_room1]
    under the name [n]. *)
Definition delivered (n : string) (payload : bytes) : serf.UserEvent :=
  {| serf.LTime := 1; serf.Name := n; serf.Payload := payload;
     serf.Coalesce := true |}.

(** The payload node A broadcasts for [chat_room1]. *)
Definition room1_payload : bytes := fst (encode chat_room1).

(** A topic that the wire format cannot carry. *)
Definition unencodable : SubscriptionEvent :=
  {| Topic := String (Ascii.ascii_of_nat 0) ""; Node := "nodeA" |}.

End Examples.

(** ** Construction and the signal loop *)

(** The calls [NewService] makes: the registration of the request handler
    with package http, and the calls recorded as for the methods. *)
Inductive SetupCall :=
| http_HandleFunc (pattern : string)
| setup_call (e : Effect).

Section Construction.

(** [security.License] and [security.Cipher]; no method of [service.go]
    looks inside them. *)
Variables License Cipher : Type.

(** [security.ParseLicense]: a license, or the error. *)
Variable security_ParseLicense : string → License + error.

(** The method [Cipher()] of a license: a cipher, or the error. *)
Variable License_Cipher : License → Cipher + error.

Variable env : Collaborators.

(** What [NewService] hands back on success: the service with the fields
    of [Service], and the two fields [License] and [Cipher] it fills. *)
Record Constructed := {
  service : Service;
  license : License;
  cipher : Cipher
}.

(** A run of [NewService]: the calls made, the patterns registered with
    the default mux of package http afterwards, and how the call ends. The
    mux belongs to the process and is shared by every call. *)
Record Setup := {
  setup_calls : list SetupCall;
  registered : gset string;
  result : Outcome (option Constructed * option error)
}.

(** Creates a new service, in a process where the patterns [mux] are
    registered. [http.HandleFunc] panics on a pattern that is registered
    already. *)
Definition NewService (mux : gset string) (cfg : config.Config) : Setup :=
  let s := {| Closing := ChanOpen; Config := cfg;
              subscriptions := NewSubscriptionTrie;
              cluster := None; name := "" |} in
  (* Attach handlers *)
  if decide ("/" ∈ mux) then
    {| setup_calls := []; registered := mux;
       result := Panicked (multiple_registrations "/") |}
  else
    let mux' := {[ "/" ]} ∪ mux in
    let made :=
      [ http_HandleFunc "/";
        (* Parse the license *)
        setup_call (logging_LogAction "service"
                      ("external address is " +:+ address_External env));
        setup_call (logging_LogAction "service" "reading the license...") ] in
    match security_ParseLicense (config.License cfg) with
    | inr err =>
        {| setup_calls := made; registered := mux';
           result := Returned (None, Some err) |}
    | inl lic =>
        (* Create a new cipher from the licence provided *)
        match License_Cipher lic with
        | inr err =>
            {| setup_calls := made; registered := mux';
               result := Returned (None, Some err) |}
        | inl c =>
            {| setup_calls := made; registered := mux';
               result := Returned
                           (Some {| service := s; license := lic; cipher := c |},
                            None) |}
        end
    end.

(** The background unit of [hookSignals]: [OnSignal] on every signal the
    channel delivers, in order; when they run out the loop is blocked on
    the channel. *)
Fixpoint signalLoop (sigs : list Signal) : Go unit :=
  match sigs with
  | [] => mret tt
  | sig :: rest => OnSignal env sig ;; signalLoop rest
  end.

End Construction.

(** ** Closed forms used to state what the methods compute *)

(** The node name [clusterConfig] settles on. *)
Definition node_name_of (env : Collaborators) (cl : config.ClusterConfig)
  : string :=
  if decide (config.NodeName cl = "")
  then address_Fingerprint env +:+ itoa (config.Gossip cl)
  else config.NodeName cl.

(** The address [clusterConfig] advertises. *)
Definition advertise_addr_of (env : Collaborators) (cl : config.ClusterConfig)
  : string :=
  if decide (config.AdvertiseAddr cl = "public")
  then address_External env
  else memberlist.AdvertiseAddr (memberlist_DefaultWANConfig env).

(** The configuration [clusterConfig] is shown to return, field by field,
    when the default configuration carries the tags [tags]. *)
Definition expected_config (env : Collaborators) (cl : config.ClusterConfig)
    (tags : gmap string string) : serf.Config :=
  {| serf.RejoinAfterLeave := true;
     serf.NodeName := node_name_of env cl;
     serf.SnapshotPath := config.SnapshotPath cl;
     serf.MemberlistConfig :=
       {| memberlist.BindPort := config.Gossip cl;
          memberlist.AdvertisePort := config.Gossip cl;
          memberlist.AdvertiseAddr := advertise_addr_of env cl;
          memberlist.SecretKey := config.Key cl |};
     serf.Tags :=
       Some (<["route" := advertise_addr_of env cl +:+ ":"
                          +:+ itoa (config.Route cl)]> tags) |}.

(** The error [onEvent] returns for an event of a name it does not know. *)
Definition unknown_event (e : serf.UserEvent) : error :=
  errors_New ("received unknown event name: " +:+ serf.Name e).

(** What one turn of the event loop on the user event [e] is shown to
    call: the print of the decoded record of a remote origin for the names
    ["+"] and ["-"], the log of the error for any other name. *)
Definition event_output (env : Collaborators) (s : Service)
    (e : serf.UserEvent) : list Effect :=
  if decide (serf.Name e = "+" ∨ serf.Name e = "-") then
    let event := fst (encoding_Decode env (serf.Payload e) SubscriptionEvent_zero) in
    if decide (Node event ≠ Name s) then [fmt_Printf_v event] else []
  else [logging_LogError "service" "event received" (unknown_event e)].

(** The event is one the serf library delivers: only a [UserEvent] has the
    type [EventUser]. *)
Definition well_typed (sel : Selected) : Prop :=
  match sel with
  | recv_events (serf.MemberEvent ty) => ty ≠ serf.EventUser
  | _ => True
  end.

(** The communication is an event that is not a user event. *)
Definition other_event (sel : Selected) : Prop :=
  match sel with
  | recv_events e => serf.Event_EventType e ≠ serf.EventUser
  | recv_Closing => False
  end.

(** The loop has received from [Closing] along [sched]. *)
Fixpoint closing_seen (sched : list Selected) : bool :=
  match sched with
  | [] => false
  | recv_Closing :: _ => true
  | recv_events _ :: rest => closing_seen rest
  end.

(** [SIGINT] or [SIGTERM]. *)
Definition terminating (sig : Signal) : Prop := sig = SIGINT ∨ sig = SIGTERM.

(** What [Close] calls on a service whose channel is open. *)
Definition close_calls (s : Service) : list Effect :=
  logging_Flush
  :: match cluster s with
     | Some _ => [serf_Leave; serf_Shutdown]
     | None => []
     end
  ++ [close_Closing].

(** What [Listen] calls before it joins, when [serf.Create] and the route
    listener succeed. *)
Definition cluster_calls (c : serf.Config) (route : Z) : list Effect :=
  [signal_Notify [SIGINT; SIGTERM]; go go_signalLoop;
   serf_Create c; go go_clusterEventLoop; tcp_ServeAsync route].

(** What [Listen] calls from the join up to the creation of the
    client-facing listener. *)
Definition join_calls (seed : string) (port : Z) : list Effect :=
  [serf_Join [seed] true; go go_membersReporter;
   logging_LogAction "service" "starting the listener...";
   listener_New port].

(** What [Listen] calls on the client-facing listener. *)
Definition serve_calls : list Effect :=
  [listener_ServeAsync MatchHTTP http_Serve;
   listener_ServeAsync MatchAny tcp_Serve;
   listener_Serve].

(** The service [NewService] is shown to build: the channel open, no
    cluster handle, no name, no subscription. *)
Definition fresh (cfg : config.Config) : Service :=
  {| Closing := ChanOpen; Config := cfg;
     subscriptions := NewSubscriptionTrie; cluster := None; name := "" |}.

(** The body of [Listen], around which [Close] is deferred. *)
Definition Listen_body (env : Collaborators) : Go (option error) :=
  hookSignals ;;
  r ← createCluster env;
  match r with
  | Some err => mret (Some err)
  | None => serve env
  end.

(** ** More concrete values *)
Module Setup.

(** A license parser that accepts every non-empty string. *)
Definition parse (l : string) : string + error :=
  if decide (l = "") then inr (errorString "invalid license") else inl l.

(** A cipher derivation that accepts licenses of more than three bytes. *)
Definition derive (l : string) : bytes + error :=
  if decide (String.length l ≤ 3)%nat
  then inr (errorString "invalid cipher")
  else inl (list_byte_of_string l).

(** A configuration without a cluster block. *)
Definition plain : config.Config :=
  {| config.License := "license"; config.TCPPort := 8080;
     config.Cluster := None |}.

(** A default configuration whose tags are allocated, with one tag. *)
Definition tagged : serf.Config :=
  serf.set_Tags (Some {[ "role" := "broker" ]}) Examples.defaults.

(** The collaborators of [Examples.world] with a default configuration
    that carries a map of tags, and with other answers of [serf.Create], of
    the route listener and of [listener.New]. *)
Definition failing (create route listen : option error) : Collaborators :=
  {| address_Fingerprint := address_Fingerprint Examples.world;
     address_External := address_External Examples.world;
     Message := SubscriptionEvent;
     encoding_Encode := Examples.encode;
     encoding_Decode := Examples.decode;
     serf_DefaultConfig := tagged;
     memberlist_DefaultWANConfig := Examples.wan;
     Create_result := λ _, create;
     Join_result := λ _ _, (0, Some (errorString "no seed reachable"));
     UserEvent_result := λ _ _ _, Some (errorString "user event exceeds limit");
     ServeAsync_result := λ _, route;
     listener_New_result := λ _, listen;
     Signal_String := Examples.signal_name |}.

(** A cluster block that advertises the private address. *)
Definition private_block : config.ClusterConfig :=
  {| config.Seed := "10.0.0.2:7946"; config.Gossip := 7946;
     config.Route := 5000; config.AdvertiseAddr := "private";
     config.Key := []; config.NodeName := "nodeC";
     config.SnapshotPath := "cluster.log" |}.

Definition private_config : config.Config :=
  {| config.License := "license"; config.TCPPort := 8080;
     config.Cluster := Some private_block |}.

(** What [NewService] builds from [plain] with [parse] and [derive]. *)
Definition built_plain : Constructed string bytes :=
  {| service := fresh plain; license := "license";
     cipher := list_byte_of_string "license" |}.

(** A service about to listen, with the cluster block of node B. *)
Definition starting : Service := fresh (Examples.clustered "nodeB").

(** A member event and a query, as serf delivers them. *)
Definition member_join : Selected := recv_events (serf.MemberEvent serf.EventMemberJoin).
Definition a_query : Selected := recv_events (serf.Query "ping" []).

End Setup.

(** ** Properties *)

(** Unfolds the monad so that a run becomes a record of its trace, its
    final service and its outcome. *)
Ltac go_unfold :=
  unfold mbind, Go_bind, mret, Go_ret, emit, get, modify, panic, os_Exit,
    close_chan; simpl.

(** The call is a [logging.LogError]. *)
Definition is_LogError (eff : Effect) : bool :=
  match eff with
  | logging_LogError _ _ _ => true
  | _ => false
  end.

(** The call is a [fmt.Printf]. *)
Definition is_Printf (eff : Effect) : bool :=
  match eff with
  | fmt_Printf_v _ => true
  | _ => false
  end.

(** The call opens or serves the client-facing listener. *)
Definition is_listener_step (eff : Effect) : bool :=
  match eff with
  | listener_New _ | listener_ServeAsync _ _ | listener_Serve => true
  | _ => false
  end.

(** [r] followed by the run [r'] that the rest of the program makes. *)
Definition then_run {A B} (r : Run A) (r' : Run B) : Run B :=
  {| trace := trace r ++ trace r'; final := final r'; outcome := outcome r' |}.

Section Properties.

Variable env : Collaborators.

(** The record the decoder leaves for the payload of [e]. *)
Definition decoded (e : serf.UserEvent) : SubscriptionEvent :=
  fst (encoding_Decode env (serf.Payload e) SubscriptionEvent_zero).

(** The error the decoder returns for the payload of [e]. *)
Definition decode_error (e : serf.UserEvent) : option error :=
  snd (encoding_Decode env (serf.Payload e) SubscriptionEvent_zero).

(** What [onEvent] prints for a subscribe or unsubscribe event. *)
Definition printed (e : serf.UserEvent) (s : Service) : list Effect :=
  if decide (Node (decoded e) ≠ Name s) then [fmt_Printf_v (decoded e)] else [].

Lemma onSubscriptionEvent_run (e : serf.UserEvent) (s : Service) :
  onSubscriptionEvent env e s
  = {| trace := printed e s; final := s; outcome := Returned tt |}.
Proof.
  unfold onSubscriptionEvent, printed, decoded. go_unfold.
  destruct (decide _); reflexivity.
Qed.

Lemma onEvent_known (e : serf.UserEvent) (s : Service) :
  serf.Name e = "+" ∨ serf.Name e = "-" →
  onEvent env e s
  = {| trace := printed e s; final := s; outcome := Returned None |}.
Proof.
  intros Hname. unfold onEvent.
  assert (Hbody : (onSubscriptionEvent env e ;; mret None) s
                  = {| trace := printed e s; final := s;
                       outcome := Returned (@None error) |}).
  { unfold mbind, Go_bind. rewrite onSubscriptionEvent_run. simpl.
    by rewrite app_nil_r. }
  destruct (decide (serf.Name e = "+")) as [|Hplus]; [exact Hbody|].
  destruct (decide (serf.Name e = "-")) as [|Hminus]; [exact Hbody|].
  destruct Hname; contradiction.
Qed.

Lemma onEvent_unknown (e : serf.UserEvent) (s : Service) :
  serf.Name e ≠ "+" → serf.Name e ≠ "-" →
  onEvent env e s
  = {| trace := []; final := s;
       outcome := Returned (Some (errors_New
                    ("received unknown event name: " +:+ serf.Name e))) |}.
Proof.
  intros Hplus Hminus. unfold onEvent.
  destruct (decide (serf.Name e = "+")); [contradiction|].
  destruct (decide (serf.Name e = "-")); [contradiction|].
  reflexivity.
Qed.

(** [onEvent] never writes to the service. *)
Lemma onEvent_final (e : serf.UserEvent) (s : Service) :
  final (onEvent env e s) = s.
Proof.
  destruct (decide (serf.Name e = "+")) as [Hp|Hp].
  { rewrite onEvent_known; auto. }
  destruct (decide (serf.Name e = "-")) as [Hm|Hm].
  { rewrite onEvent_known; auto. }
  rewrite onEvent_unknown; auto.
Qed.

(** One turn of the loop on a user event, from the run of [onEvent]. *)
Lemma handleEvent_User (e : serf.UserEvent) (s : Service) :
  handleEvent env (serf.User e) s
  = match outcome (onEvent env e s) with
    | Returned (Some err) =>
        {| trace := trace (onEvent env e s)
                    ++ [logging_LogError "service" "event received" err];
           final := final (onEvent env e s); outcome := Returned tt |}
    | Returned None =>
        {| trace := trace (onEvent env e s) ++ [];
           final := final (onEvent env e s); outcome := Returned tt |}
    | Panicked p =>
        {| trace := trace (onEvent env e s);
           final := final (onEvent env e s); outcome := Panicked p |}
    | Exited c =>
        {| trace := trace (onEvent env e s);
           final := final (onEvent env e s); outcome := Exited c |}
    end.
Proof.
  unfold handleEvent. simpl. unfold mbind, Go_bind.
  destruct (outcome (onEvent env e s)) as [[err|]| |]; reflexivity.
Qed.

(** The loop takes the next communication once the body returned. *)
Lemma clusterEventLoop_step (e : serf.Event) (rest : list Selected)
    (s s' : Service) (tr : list Effect) :
  handleEvent env e s = {| trace := tr; final := s'; outcome := Returned tt |} →
  clusterEventLoop env (recv_events e :: rest) s
  = then_run (handleEvent env e s) (clusterEventLoop env rest s').
Proof.
  intros H. simpl. unfold mbind, Go_bind, then_run. rewrite H. reflexivity.
Qed.

(** [Close] in full: what it calls, what it leaves, how it ends. *)
Lemma Close_run (s : Service) :
  Close s
  = {| trace := logging_Flush
                :: match cluster s with
                   | Some _ => [serf_Leave; serf_Shutdown]
                   | None => []
                   end
                ++ match Closing s with
                   | ChanOpen => [close_Closing]
                   | ChanClosed => []
                   end;
       final := match Closing s with
                | ChanOpen => set_Closing ChanClosed s
                | ChanClosed => s
                end;
       outcome := match Closing s with
                  | ChanOpen => Returned tt
                  | ChanClosed => Panicked close_of_closed_channel
                  end |}.
Proof.
  unfold Close, mbind, Go_bind, get, emit, close_chan, mret, Go_ret. simpl.
  destruct (cluster s); simpl; destruct (Closing s); reflexivity.
Qed.

End Properties.

Section Claims.

Variable env : Collaborators.

(** C1, as amended. For a cluster event named ["+"] or ["-"] whose decoded
    origin node differs from the local node identity, [onEvent] prints the
    decoded record, returns nil and leaves the service, and with it the
    subscription-matching structure, as it was: no entry is inserted and
    none is removed. *)
Theorem onEvent_remote_origin_prints (e : serf.UserEvent) (s : Service) :
  serf.Name e = "+" ∨ serf.Name e = "-" →
  Node (decoded env e) ≠ Name s →
  onEvent env e s
  = {| trace := [fmt_Printf_v (decoded env e)]; final := s;
       outcome := Returned None |}
  ∧ subscriptions (final (onEvent env e s)) = subscriptions s.
Proof.
  intros Hname Hremote. rewrite onEvent_known by exact Hname.
  unfold printed. destruct (decide _); [split; reflexivity | contradiction].
Qed.

(** C2, as amended. On a service whose [Closing] channel is open, [Close]
    does not panic and leaves the channel closed, and an event loop that
    then receives from the channel returns at that receive. [Close] has no
    guard against a second shutdown: invoked again on the same service it
    panics at [close(s.Closing)]. *)
Theorem Close_once_then_panics (s : Service) :
  Closing s = ChanOpen →
  outcome (Close s) = Returned tt
  ∧ Closing (final (Close s)) = ChanClosed
  ∧ (∀ sched, clusterEventLoop env (recv_Closing :: sched) (final (Close s))
              = {| trace := []; final := final (Close s);
                   outcome := Returned LoopReturned |})
  ∧ outcome (Close (final (Close s))) = Panicked close_of_closed_channel.
Proof.
  intros Hopen. rewrite (Close_run (final (Close s))).
  rewrite !Close_run, Hopen. simpl. repeat split; reflexivity.
Qed.

(** C4, as amended. For a cluster event named ["+"] or ["-"] whose payload
    fails to decode, the decoder's error is discarded: [onEvent] returns
    nil and leaves the service unchanged, the event loop logs no error and
    goes on with the next event. The record as the decoder left it is
    printed when its node differs from the local one. *)
Theorem onEvent_decode_error_discarded
    (e : serf.UserEvent) (s : Service) (err : error) (rest : list Selected) :
  serf.Name e = "+" ∨ serf.Name e = "-" →
  decode_error env e = Some err →
  onEvent env e s
  = {| trace := printed env e s; final := s; outcome := Returned None |}
  ∧ existsb is_LogError (trace (handleEvent env (serf.User e) s)) = false
  ∧ clusterEventLoop env (recv_events (serf.User e) :: rest) s
    = {| trace := printed env e s ++ trace (clusterEventLoop env rest s);
         final := final (clusterEventLoop env rest s);
         outcome := outcome (clusterEventLoop env rest s) |}.
Proof.
  intros Hname _.
  assert (Hbody : handleEvent env (serf.User e) s
                  = {| trace := printed env e s; final := s;
                       outcome := Returned tt |}).
  { rewrite handleEvent_User, onEvent_known by exact Hname. simpl.
    by rewrite app_nil_r. }
  split; [by apply onEvent_known|]. split.
  - rewrite Hbody. simpl. unfold printed. by destruct (decide _).
  - rewrite (clusterEventLoop_step env _ _ _ _ _ Hbody), Hbody. reflexivity.
Qed.

(** C5. For a cluster event whose name is neither ["+"] nor ["-"],
    [onEvent] returns the error "received unknown event name: " followed by
    the name and leaves the service, and with it the topic-matching state,
    unchanged; the event loop logs that error and goes on with the events
    that follow. *)
Theorem onEvent_unknown_name
    (e : serf.UserEvent) (s : Service) (rest : list Selected) :
  serf.Name e ≠ "+" → serf.Name e ≠ "-" →
  let err := errors_New ("received unknown event name: " +:+ serf.Name e) in
  onEvent env e s
  = {| trace := []; final := s; outcome := Returned (Some err) |}
  ∧ subscriptions (final (onEvent env e s)) = subscriptions s
  ∧ clusterEventLoop env (recv_events (serf.User e) :: rest) s
    = {| trace := logging_LogError "service" "event received" err
                  :: trace (clusterEventLoop env rest s);
         final := final (clusterEventLoop env rest s);
         outcome := outcome (clusterEventLoop env rest s) |}.
Proof.
  intros Hplus Hminus err.
  pose proof (onEvent_unknown env e s Hplus Hminus) as Hrun. fold err in Hrun.
  assert (Hbody : handleEvent env (serf.User e) s
                  = {| trace := [logging_LogError "service" "event received" err];
                       final := s; outcome := Returned tt |}).
  { rewrite handleEvent_User, Hrun. reflexivity. }
  split; [exact Hrun|]. split; [by rewrite Hrun|].
  rewrite (clusterEventLoop_step env _ _ _ _ _ Hbody), Hbody. reflexivity.
Qed.

(** C6. A cluster event whose decoded origin node equals the local node
    identity, [Name()], is discarded whatever its content: the service, and
    with it the topic-matching structure, is not modified, and nothing is
    printed. *)
Theorem onEvent_own_echo_discarded (e : serf.UserEvent) (s : Service) :
  Node (decoded env e) = Name s →
  final (onEvent env e s) = s
  ∧ subscriptions (final (onEvent env e s)) = subscriptions s
  ∧ existsb is_Printf (trace (onEvent env e s)) = false.
Proof.
  intros Hecho. rewrite onEvent_final. split; [reflexivity|].
  split; [reflexivity|].
  destruct (decide (serf.Name e = "+")) as [Hp|Hp];
    [|destruct (decide (serf.Name e = "-")) as [Hm|Hm]].
  - rewrite onEvent_known by auto. unfold printed.
    destruct (decide _); [contradiction|reflexivity].
  - rewrite onEvent_known by auto. unfold printed.
    destruct (decide _); [contradiction|reflexivity].
  - rewrite onEvent_unknown by auto. reflexivity.
Qed.


(** C8. With a cluster block, [clusterConfig] settles on the configured
    node name when there is one, and on the address fingerprint followed by
    the gossip port in decimal when the configured name is empty; it
    records that name in the service, so that [Name()] returns it, and the
    configuration it returns carries it. When the tags of the default
    configuration are a nil map, as the serf library leaves them, the name
    is recorded all the same and the write of the route tag then panics,
    so that no configuration is returned. *)
Theorem clusterConfig_node_name
    (cfg : config.Config) (cl : config.ClusterConfig) (s : Service) :
  config.Cluster cfg = Some cl →
  let n := if decide (config.NodeName cl = "")
           then address_Fingerprint env +:+ itoa (config.Gossip cl)
           else config.NodeName cl in
  Name (final (clusterConfig env cfg s)) = n
  ∧ match serf.Tags (serf_DefaultConfig env) with
    | Some _ => ∃ c, outcome (clusterConfig env cfg s) = Returned c
                     ∧ serf.NodeName c = n
    | None => outcome (clusterConfig env cfg s) = Panicked assignment_to_nil_map
    end.
Proof.
  intros Hcl n. subst n. unfold clusterConfig. rewrite Hcl. go_unfold.
  destruct (decide (config.NodeName cl = "")),
           (decide (config.AdvertiseAddr cl = "public")); simpl;
    destruct (serf.Tags (serf_DefaultConfig env)) as [tags|]; simpl;
    (split; [reflexivity|]); try reflexivity; by eexists.
Qed.

(** C9. For an OS signal other than SIGINT and SIGTERM, [OnSignal] does
    nothing: no log entry, no call of [Close], no change of the service and
    no process exit. *)
Theorem OnSignal_other_signal_noop (sig : Signal) (s : Service) :
  sig ≠ SIGINT → sig ≠ SIGTERM →
  OnSignal env sig s = {| trace := []; final := s; outcome := Returned tt |}.
Proof.
  intros Hint Hterm. unfold OnSignal.
  destruct (decide (sig = SIGTERM)); [contradiction|].
  destruct (decide (sig = SIGINT)); [contradiction|].
  reflexivity.
Qed.

(** C10. Every user event [Broadcast] hands to the membership transport
    carries the caller's name and the coalesce flag [true]; when encoding
    the message fails, [Broadcast] returns the encoding error and the
    transport is not invoked. *)
Theorem Broadcast_coalesces
    (name : string) (message : Message env) (s : Service) :
  (∀ n p c, serf_UserEvent n p c ∈ trace (Broadcast env name message s) →
            n = name ∧ c = true)
  ∧ (∀ err, snd (encoding_Encode env message) = Some err →
            Broadcast env name message s
            = {| trace := []; final := s; outcome := Returned (Some err) |}).
Proof.
  unfold Broadcast, cluster_UserEvent.
  destruct (encoding_Encode env message) as [buffer [err|]]; simpl; split.
  - intros n p c Hin. inversion Hin.
  - intros err' [= ->]. reflexivity.
  - intros n p c. go_unfold. destruct (cluster s); simpl.
    + intros Hin. apply list_elem_of_singleton in Hin. by injection Hin as -> _ ->.
    + intros Hin. inversion Hin.
  - intros err [=].
Qed.

End Claims.

(** ** The claims on the two-node cluster *)

Import Examples.

(** C1, the claim as stated fails. Node A broadcasts the subscription to
    [chat/room1] under the name ["+"]; node B decodes the payload to the
    topic [chat/room1] and the origin [nodeA], which is not its own name,
    and after [onEvent] the subscription-matching structure of node B holds
    no entry for ([chat/room1], [nodeA]). Likewise the event named ["-"]
    leaves that entry in a structure that holds it. *)
Lemma scenario_A_inserts_nothing :
  trace (Broadcast world "+" chat_room1 nodeA)
  = [serf_UserEvent "+" room1_payload true]
  ∧ decoded world (delivered "+" room1_payload) = chat_room1
  ∧ Node chat_room1 ≠ Name nodeB
  ∧ ("chat/room1", "nodeA")
    ∉ subscriptions (final (onEvent world (delivered "+" room1_payload) nodeB))
  ∧ ("chat/room1", "nodeA")
    ∈ subscriptions
        (final (onEvent world (delivered "-" room1_payload) nodeB_subscribed)).
Proof.
  split; [reflexivity|]. split; [reflexivity|]. split; [discriminate|].
  rewrite !onEvent_final.
  unfold nodeB, node, nodeB_subscribed, trie_insert, NewSubscriptionTrie.
  simpl. set_solver.
Qed.

Lemma onEvent_remote_origin_prints_witness :
  (serf.Name (delivered "-" room1_payload) = "+"
   ∨ serf.Name (delivered "-" room1_payload) = "-")
  ∧ Node (decoded world (delivered "-" room1_payload)) ≠ Name nodeB
  ∧ onEvent world (delivered "-" room1_payload) nodeB
    = {| trace := [fmt_Printf_v (decoded world (delivered "-" room1_payload))];
         final := nodeB; outcome := Returned None |}
  ∧ subscriptions (final (onEvent world (delivered "-" room1_payload) nodeB))
    = subscriptions nodeB.
Proof.
  split; [right; reflexivity|]. split; [vm_compute; discriminate|].
  apply (onEvent_remote_origin_prints world (delivered "-" room1_payload) nodeB);
    [right; reflexivity | vm_compute; discriminate].
Defined.

(** C2, the claim as stated fails. On a freshly constructed service the
    first [Close] returns and the second one panics with a close of a
    closed channel. *)
Lemma Close_twice_panics :
  outcome (Close standalone) = Returned tt
  ∧ outcome ((Close ;; Close) standalone) = Panicked close_of_closed_channel.
Proof. split; reflexivity. Qed.

Lemma Close_once_then_panics_witness :
  Closing nodeB = ChanOpen
  ∧ outcome (Close nodeB) = Returned tt
  ∧ Closing (final (Close nodeB)) = ChanClosed
  ∧ (∀ sched, clusterEventLoop world (recv_Closing :: sched) (final (Close nodeB))
              = {| trace := []; final := final (Close nodeB);
                   outcome := Returned LoopReturned |})
  ∧ outcome (Close (final (Close nodeB))) = Panicked close_of_closed_channel.
Proof.
  split; [reflexivity|].
  apply (Close_once_then_panics world nodeB). reflexivity.
Defined.

(** C3, the code at the failing input. With no cluster block, [Listen]
    hooks the signals, skips the guarded block and then panics on the nil
    dereference in [s.Config.Cluster.Seed]; the deferred [Close] runs and
    the panic goes on. The client-facing listener is never opened. *)
Lemma Listen_without_cluster_block_panics :
  Listen world standalone
  = {| trace := [signal_Notify [SIGINT; SIGTERM]; go go_signalLoop;
                 logging_Flush; close_Closing];
       final := set_Closing ChanClosed standalone;
       outcome := Panicked nil_dereference |}.
Proof. reflexivity. Qed.

(** The same for every collaborator and every service without a cluster
    block: [Listen] ends in a panic and never reaches the listener. *)
Lemma Listen_nil_cluster (env : Collaborators) (s : Service) :
  config.Cluster (Config s) = None →
  (outcome (Listen env s) = Panicked nil_dereference
   ∨ outcome (Listen env s) = Panicked close_of_closed_channel)
  ∧ existsb is_listener_step (trace (Listen env s)) = false.
Proof.
  intros Hnil.
  assert (Hcreate : createCluster env s
                    = {| trace := []; final := s; outcome := Returned None |}).
  { unfold createCluster, mbind, Go_bind, get. cbn [outcome final trace].
    rewrite Hnil. reflexivity. }
  assert (Hserve : serve env s
                   = {| trace := []; final := s;
                        outcome := Panicked nil_dereference |}).
  { unfold serve, mbind, Go_bind, get. cbn [outcome final trace].
    rewrite Hnil. reflexivity. }
  unfold Listen, defer, hookSignals, emit, mbind, Go_bind.
  cbn [outcome final trace]. rewrite Hcreate. cbn [outcome final trace].
  rewrite Hserve. cbn [outcome final trace]. rewrite Close_run.
  cbn [outcome final trace].
  destruct (cluster s), (Closing s); split; auto.
Qed.

(** C4, the claim as stated fails. A subscribe event with a payload the
    decoder rejects reaches node B: the decoder returns an error, and one
    turn of the event loop prints the zero record, logs nothing and
    returns. *)
Lemma malformed_payload_not_reported :
  decode_error world (delivered "+" []) = Some (errorString "malformed payload")
  ∧ handleEvent world (serf.User (delivered "+" [])) nodeB
    = {| trace := [fmt_Printf_v SubscriptionEvent_zero]; final := nodeB;
         outcome := Returned tt |}
  ∧ existsb is_LogError
      (trace (handleEvent world (serf.User (delivered "+" [])) nodeB)) = false
  ∧ outcome (onEvent world (delivered "+" []) nodeB) = Returned None.
Proof. repeat split; reflexivity. Qed.

Lemma onEvent_decode_error_discarded_witness :
  (serf.Name (delivered "+" []) = "+" ∨ serf.Name (delivered "+" []) = "-")
  ∧ decode_error world (delivered "+" []) = Some (errorString "malformed payload")
  ∧ onEvent world (delivered "+" []) nodeB
    = {| trace := printed world (delivered "+" []) nodeB; final := nodeB;
         outcome := Returned None |}
  ∧ existsb is_LogError
      (trace (handleEvent world (serf.User (delivered "+" [])) nodeB)) = false
  ∧ clusterEventLoop world [recv_events (serf.User (delivered "+" [])); recv_Closing]
      nodeB
    = {| trace := printed world (delivered "+" []) nodeB
                  ++ trace (clusterEventLoop world [recv_Closing] nodeB);
         final := final (clusterEventLoop world [recv_Closing] nodeB);
         outcome := outcome (clusterEventLoop world [recv_Closing] nodeB) |}.
Proof.
  split; [left; reflexivity|]. split; [reflexivity|].
  apply (onEvent_decode_error_discarded world (delivered "+" []) nodeB
           (errorString "malformed payload") [recv_Closing]);
    [left; reflexivity | reflexivity].
Defined.

Lemma onEvent_unknown_name_witness :
  serf.Name (delivered "?" room1_payload) ≠ "+"
  ∧ serf.Name (delivered "?" room1_payload) ≠ "-"
  ∧ onEvent world (delivered "?" room1_payload) nodeB
    = {| trace := []; final := nodeB;
         outcome := Returned (Some (errors_New "received unknown event name: ?")) |}
  ∧ subscriptions (final (onEvent world (delivered "?" room1_payload) nodeB))
    = subscriptions nodeB
  ∧ clusterEventLoop world
      [recv_events (serf.User (delivered "?" room1_payload)); recv_Closing] nodeB
    = {| trace := logging_LogError "service" "event received"
                    (errors_New "received unknown event name: ?")
                  :: trace (clusterEventLoop world [recv_Closing] nodeB);
         final := final (clusterEventLoop world [recv_Closing] nodeB);
         outcome := outcome (clusterEventLoop world [recv_Closing] nodeB) |}.
Proof.
  split; [simpl; discriminate|]. split; [simpl; discriminate|].
  apply (onEvent_unknown_name world (delivered "?" room1_payload) nodeB
           [recv_Closing]); simpl; discriminate.
Defined.

Lemma onEvent_own_echo_discarded_witness :
  Node (decoded world (delivered "+" room1_payload)) = Name nodeA
  ∧ final (onEvent world (delivered "+" room1_payload) nodeA) = nodeA
  ∧ subscriptions (final (onEvent world (delivered "+" room1_payload) nodeA))
    = subscriptions nodeA
  ∧ existsb is_Printf (trace (onEvent world (delivered "+" room1_payload) nodeA))
    = false.
Proof.
  split; [reflexivity|].
  apply (onEvent_own_echo_discarded world (delivered "+" room1_payload) nodeA).
  reflexivity.
Defined.

(** The name synthesized on the example configuration: the fingerprint
    [f00d] followed by the gossip port 7946. *)
Example synthesized_name :
  Name (final (clusterConfig world (clustered "") standalone)) = "f00d7946".
Proof. reflexivity. Qed.

Lemma clusterConfig_node_name_witness :
  config.Cluster (clustered "") = Some (cluster_block "")
  ∧ Name (final (clusterConfig world (clustered "") standalone)) = "f00d7946"
  ∧ outcome (clusterConfig world (clustered "") standalone)
    = Panicked assignment_to_nil_map.
Proof.
  split; [reflexivity|].
  exact (clusterConfig_node_name world (clustered "") (cluster_block "")
           standalone eq_refl).
Defined.

Lemma OnSignal_other_signal_noop_witness :
  syscall_Signal 1 ≠ SIGINT
  ∧ syscall_Signal 1 ≠ SIGTERM
  ∧ OnSignal world (syscall_Signal 1) nodeB
    = {| trace := []; final := nodeB; outcome := Returned tt |}.
Proof.
  split; [discriminate|]. split; [discriminate|].
  apply (OnSignal_other_signal_noop world (syscall_Signal 1) nodeB);
    discriminate.
Defined.

Lemma Broadcast_coalesces_witness :
  serf_UserEvent "+" room1_payload true
    ∈ trace (Broadcast world "+" chat_room1 nodeA)
  ∧ ("+" = "+" ∧ true = true)
  ∧ snd (encoding_Encode world unencodable)
    = Some (errorString "topic holds the separator")
  ∧ Broadcast world "+" unencodable nodeA
    = {| trace := []; final := nodeA;
         outcome := Returned (Some (errorString "topic holds the separator")) |}.
Proof.
  split; [vm_compute; constructor|].
  split.
  - apply (proj1 (Broadcast_coalesces world "+" chat_room1 nodeA)
             "+" room1_payload true).
    vm_compute; constructor.
  - split; [reflexivity|].
    apply (proj2 (Broadcast_coalesces world "+" unencodable nodeA)).
    reflexivity.
Defined.

(** ** Further properties of the service *)

Section Runs.

Variable env : Collaborators.

Lemma bind_returned {A B} (m : Go A) (k : A → Go B) (s s' : Service)
    (t : list Effect) (a : A) :
  m s = {| trace := t; final := s'; outcome := Returned a |} →
  (m ≫= k) s
  = {| trace := t ++ trace (k a s'); final := final (k a s');
       outcome := outcome (k a s') |}.
Proof. intros H. unfold mbind, Go_bind. rewrite H. reflexivity. Qed.

Lemma bind_panicked {A B} (m : Go A) (k : A → Go B) (s s' : Service)
    (t : list Effect) (p : PanicValue) :
  m s = {| trace := t; final := s'; outcome := Panicked p |} →
  (m ≫= k) s = {| trace := t; final := s'; outcome := Panicked p |}.
Proof. intros H. unfold mbind, Go_bind. rewrite H. reflexivity. Qed.

Lemma bind_exited {A B} (m : Go A) (k : A → Go B) (s s' : Service)
    (t : list Effect) (c : Z) :
  m s = {| trace := t; final := s'; outcome := Exited c |} →
  (m ≫= k) s = {| trace := t; final := s'; outcome := Exited c |}.
Proof. intros H. unfold mbind, Go_bind. rewrite H. reflexivity. Qed.

(** A run is its three fields. *)
Lemma Run_eta {A} (r : Run A) :
  r = {| trace := trace r; final := final r; outcome := outcome r |}.
Proof. by destruct r. Qed.

(** [Close] on an open channel. *)
Lemma Close_open (s : Service) :
  Closing s = ChanOpen →
  Close s = {| trace := close_calls s; final := set_Closing ChanClosed s;
               outcome := Returned tt |}.
Proof. intros H. rewrite Close_run, H. reflexivity. Qed.

(** [Close] on a closed channel. *)
Lemma Close_closed (s : Service) :
  Closing s = ChanClosed →
  Close s = {| trace := logging_Flush
                        :: match cluster s with
                           | Some _ => [serf_Leave; serf_Shutdown]
                           | None => []
                           end;
               final := s; outcome := Panicked close_of_closed_channel |}.
Proof. intros H. rewrite Close_run, H. by rewrite app_nil_r. Qed.

(** The assignments of [clusterConfig] add up to [expected_config] when
    the default configuration carries a map of tags. *)
Lemma clusterConfig_run (cfg : config.Config) (cl : config.ClusterConfig)
    (tags : gmap string string) (s : Service) :
  config.Cluster cfg = Some cl →
  serf.Tags (serf_DefaultConfig env) = Some tags →
  clusterConfig env cfg s
  = {| trace := []; final := set_name (node_name_of env cl) s;
       outcome := Returned (expected_config env cl tags) |}.
Proof.
  intros Hcl Htags. unfold clusterConfig. rewrite Hcl.
  unfold expected_config, node_name_of, advertise_addr_of. go_unfold.
  destruct (decide (config.NodeName cl = "")),
           (decide (config.AdvertiseAddr cl = "public")); simpl;
    rewrite Htags; reflexivity.
Qed.

(** On the nil map the name is recorded, and then the write panics. *)
Lemma clusterConfig_nil_tags (cfg : config.Config) (cl : config.ClusterConfig)
    (s : Service) :
  config.Cluster cfg = Some cl →
  serf.Tags (serf_DefaultConfig env) = None →
  clusterConfig env cfg s
  = {| trace := []; final := set_name (node_name_of env cl) s;
       outcome := Panicked assignment_to_nil_map |}.
Proof.
  intros Hcl Htags. unfold clusterConfig. rewrite Hcl.
  unfold node_name_of. go_unfold.
  destruct (decide (config.NodeName cl = "")),
           (decide (config.AdvertiseAddr cl = "public")); simpl;
    rewrite Htags; reflexivity.
Qed.

Lemma createCluster_run (cl : config.ClusterConfig)
    (tags : gmap string string) (s : Service) :
  config.Cluster (Config s) = Some cl →
  serf.Tags (serf_DefaultConfig env) = Some tags →
  let c := expected_config env cl tags in
  let s1 := set_name (node_name_of env cl) s in
  let started := [serf_Create c; go go_clusterEventLoop;
                  tcp_ServeAsync (config.Route cl)] in
  createCluster env s
  = match Create_result env c with
    | Some err =>
        {| trace := [serf_Create c]; final := set_cluster None s1;
           outcome := Returned (Some err) |}
    | None =>
        match ServeAsync_result env (config.Route cl) with
        | Some err =>
            {| trace := started;
               final := set_cluster (Some {| serf.conf := c |}) s1;
               outcome := Panicked (panic_error err) |}
        | None =>
            {| trace := started;
               final := set_cluster (Some {| serf.conf := c |}) s1;
               outcome := Returned None |}
        end
    end.
Proof.
  intros Hcl Htags c s1 started. unfold createCluster.
  rewrite (bind_returned get _ s s [] s) by reflexivity.
  rewrite Hcl.
  rewrite (bind_returned (clusterConfig env (Config s)) _ s s1 [] c)
    by (by apply clusterConfig_run).
  cbn [app].
  destruct (Create_result env c) as [err|];
    [reflexivity|].
  destruct (ServeAsync_result env (config.Route cl)) as [err|]; reflexivity.
Qed.

Lemma createCluster_nil_tags (cl : config.ClusterConfig) (s : Service) :
  config.Cluster (Config s) = Some cl →
  serf.Tags (serf_DefaultConfig env) = None →
  createCluster env s
  = {| trace := []; final := set_name (node_name_of env cl) s;
       outcome := Panicked assignment_to_nil_map |}.
Proof.
  intros Hcl Htags. unfold createCluster.
  rewrite (bind_returned get _ s s [] s) by reflexivity.
  rewrite Hcl.
  by rewrite (bind_panicked _ _ _ _ _ _ (clusterConfig_nil_tags _ cl s Hcl Htags)).
Qed.

Lemma serve_run (cl : config.ClusterConfig) (h : serf.Serf) (s : Service) :
  config.Cluster (Config s) = Some cl →
  cluster s = Some h →
  let port := config.TCPPort (Config s) in
  serve env s
  = match listener_New_result env port with
    | Some err =>
        {| trace := join_calls (config.Seed cl) port; final := s;
           outcome := Panicked (panic_error err) |}
    | None =>
        {| trace := join_calls (config.Seed cl) port ++ serve_calls;
           final := s; outcome := Returned None |}
    end.
Proof.
  intros Hcl Hh port. unfold serve.
  rewrite (bind_returned get _ s s [] s) by reflexivity.
  rewrite Hcl.
  rewrite (bind_returned (mret (config.Seed cl)) _ s s [] (config.Seed cl))
    by reflexivity.
  assert (HJoin : Join env [config.Seed cl] s
                  = {| trace := [serf_Join [config.Seed cl] true]; final := s;
                       outcome := Returned (snd (Join_result env [config.Seed cl] true)) |}).
  { unfold Join, cluster_Join. go_unfold. rewrite Hh. reflexivity. }
  rewrite (bind_returned _ _ _ _ _ _ HJoin).
  fold port.
  destruct (listener_New_result env port) as [err|]; reflexivity.
Qed.

(** [defer Close] around a body that returned or panicked. *)
Lemma defer_Close {A} (m : Go A) (s : Service) :
  (∀ c, outcome (m s) ≠ Exited c) →
  defer Close m s
  = {| trace := trace (m s) ++ trace (Close (final (m s)));
       final := final (Close (final (m s)));
       outcome := match outcome (Close (final (m s))) with
                  | Returned _ => outcome (m s)
                  | Panicked p => Panicked p
                  | Exited c => Exited c
                  end |}.
Proof.
  intros Hne. unfold defer.
  destruct (outcome (m s)) as [a|p|c] eqn:Ho; [reflexivity|reflexivity|].
  by destruct (Hne c).
Qed.


Lemma Listen_defer (s : Service) :
  Listen env s = defer Close (Listen_body env) s.
Proof. reflexivity. Qed.

Lemma hookSignals_run (s : Service) :
  hookSignals s
  = {| trace := [signal_Notify [SIGINT; SIGTERM]; go go_signalLoop];
       final := s; outcome := Returned tt |}.
Proof. reflexivity. Qed.

(** Without a cluster block the body panics right after the hook. *)
Lemma Listen_body_nil (s : Service) :
  config.Cluster (Config s) = None →
  Listen_body env s
  = {| trace := [signal_Notify [SIGINT; SIGTERM]; go go_signalLoop];
       final := s; outcome := Panicked nil_dereference |}.
Proof.
  intros Hnil. unfold Listen_body.
  rewrite (bind_returned _ _ _ _ _ _ (hookSignals_run s)).
  assert (Hcreate : createCluster env s
                    = {| trace := []; final := s; outcome := Returned None |}).
  { unfold createCluster.
    rewrite (bind_returned get _ s s [] s) by reflexivity.
    rewrite Hnil. reflexivity. }
  rewrite (bind_returned _ _ _ _ _ _ Hcreate).
  assert (Hserve : serve env s
                   = {| trace := []; final := s;
                        outcome := Panicked nil_dereference |}).
  { unfold serve.
    rewrite (bind_returned get _ s s [] s) by reflexivity.
    rewrite Hnil. reflexivity. }
  rewrite Hserve. reflexivity.
Qed.

(** With a cluster block: the four ways the body ends. *)
Lemma Listen_body_run (cl : config.ClusterConfig)
    (tags : gmap string string) (s : Service) :
  config.Cluster (Config s) = Some cl →
  serf.Tags (serf_DefaultConfig env) = Some tags →
  let c := expected_config env cl tags in
  let s1 := set_name (node_name_of env cl) s in
  let s2 := set_cluster (Some {| serf.conf := c |}) s1 in
  let port := config.TCPPort (Config s) in
  Listen_body env s
  = match Create_result env c with
    | Some err =>
        {| trace := [signal_Notify [SIGINT; SIGTERM]; go go_signalLoop;
                     serf_Create c];
           final := set_cluster None s1; outcome := Returned (Some err) |}
    | None =>
        match ServeAsync_result env (config.Route cl) with
        | Some err =>
            {| trace := cluster_calls c (config.Route cl); final := s2;
               outcome := Panicked (panic_error err) |}
        | None =>
            match listener_New_result env port with
            | Some err =>
                {| trace := cluster_calls c (config.Route cl)
                            ++ join_calls (config.Seed cl) port;
                   final := s2; outcome := Panicked (panic_error err) |}
            | None =>
                {| trace := cluster_calls c (config.Route cl)
                            ++ join_calls (config.Seed cl) port ++ serve_calls;
                   final := s2; outcome := Returned None |}
            end
        end
    end.
Proof.
  intros Hcl Htags c s1 s2 port. unfold Listen_body.
  rewrite (bind_returned _ _ _ _ _ _ (hookSignals_run s)).
  pose proof (createCluster_run cl tags s Hcl Htags) as Hcreate.
  cbv zeta in Hcreate.
  fold c s1 s2 in Hcreate.
  destruct (Create_result env c) as [err|].
  { rewrite (bind_returned _ _ _ _ _ _ Hcreate). reflexivity. }
  destruct (ServeAsync_result env (config.Route cl)) as [err|].
  { rewrite (bind_panicked _ _ _ _ _ _ Hcreate). reflexivity. }
  rewrite (bind_returned _ _ _ _ _ _ Hcreate).
  pose proof (serve_run cl {| serf.conf := c |} s2 Hcl eq_refl) as Hserve.
  cbv zeta in Hserve. change (Config s2) with (Config s) in Hserve.
  fold port in Hserve. rewrite Hserve.
  destruct (listener_New_result env port) as [err|]; reflexivity.
Qed.

(** With a cluster block and a nil map of tags, the body panics in
    [clusterConfig], before [serf.Create]. *)
Lemma Listen_body_nil_tags (cl : config.ClusterConfig) (s : Service) :
  config.Cluster (Config s) = Some cl →
  serf.Tags (serf_DefaultConfig env) = None →
  Listen_body env s
  = {| trace := [signal_Notify [SIGINT; SIGTERM]; go go_signalLoop];
       final := set_name (node_name_of env cl) s;
       outcome := Panicked assignment_to_nil_map |}.
Proof.
  intros Hcl Htags. unfold Listen_body.
  rewrite (bind_returned _ _ _ _ _ _ (hookSignals_run s)).
  by rewrite (bind_panicked _ _ _ _ _ _ (createCluster_nil_tags cl s Hcl Htags)).
Qed.

End Runs.

Section EventLoop.

Variable env : Collaborators.

(** One turn of the loop on a user event never fails and never writes. *)
Lemma handleEvent_User_run (e : serf.UserEvent) (s : Service) :
  handleEvent env (serf.User e) s
  = {| trace := event_output env s e; final := s; outcome := Returned tt |}.
Proof.
  rewrite handleEvent_User. unfold event_output.
  destruct (decide (serf.Name e = "+" ∨ serf.Name e = "-")) as [Hk|Hu].
  - rewrite onEvent_known by exact Hk. simpl. by rewrite app_nil_r.
  - rewrite onEvent_unknown by (intros ?; apply Hu; auto). reflexivity.
Qed.

(** One turn of the loop on an event that is not a user event. *)
Lemma handleEvent_other (e : serf.Event) (s : Service) :
  serf.Event_EventType e ≠ serf.EventUser →
  handleEvent env e s = {| trace := []; final := s; outcome := Returned tt |}.
Proof.
  intros Hne. unfold handleEvent.
  destruct (decide (serf.Event_EventType e = serf.EventUser));
    [contradiction|reflexivity].
Qed.

(** One turn of the loop on an event serf delivers returns, with the
    service as it was. *)
Lemma handleEvent_well_typed (e : serf.Event) (s : Service) :
  well_typed (recv_events e) →
  ∃ t, handleEvent env e s
       = {| trace := t; final := s; outcome := Returned tt |}.
Proof.
  intros Hwt. destruct e as [ty|u|n p].
  - exists []. by apply handleEvent_other.
  - eexists. apply handleEvent_User_run.
  - exists []. by apply handleEvent_other.
Qed.

(** The event loop skips every event that is not a user event: along a
    sequence of member events and queries it calls nothing, leaves the
    service unchanged and stays blocked in its [select]. *)
Theorem clusterEventLoop_skips_other_events (sched : list Selected) (s : Service) :
  Forall other_event sched →
  clusterEventLoop env sched s
  = {| trace := []; final := s; outcome := Returned LoopBlocked |}.
Proof.
  induction 1 as [|sel rest Hsel _ IH]; [reflexivity|].
  destruct sel as [|e]; [destruct Hsel|].
  rewrite (clusterEventLoop_step env e rest s s [] (handleEvent_other e s Hsel)).
  rewrite handleEvent_other by exact Hsel. unfold then_run. rewrite IH.
  reflexivity.
Qed.

(** On the events serf delivers, the event loop never panics, never exits
    the process and never writes to the service; it returns exactly when
    it has received from [Closing], and is blocked in the [select]
    otherwise. *)
Theorem clusterEventLoop_keeps_service (sched : list Selected) (s : Service) :
  Forall well_typed sched →
  final (clusterEventLoop env sched s) = s
  ∧ outcome (clusterEventLoop env sched s)
    = Returned (if closing_seen sched then LoopReturned else LoopBlocked).
Proof.
  induction 1 as [|sel rest Hsel _ IH]; [by split|].
  destruct sel as [|e]; [by split|].
  destruct (handleEvent_well_typed e s Hsel) as [t Ht].
  rewrite (clusterEventLoop_step env e rest s s t Ht).
  unfold then_run. simpl. exact IH.
Qed.


(** The event loop handles user events strictly in arrival order: the
    calls it makes along a sequence of user events are the calls of the
    first event, then those of the second, and so on, where an event named
    ["+"] or ["-"] prints its decoded record when the origin is remote and
    any other event logs the unknown-event error. *)
Theorem clusterEventLoop_in_arrival_order
    (events : list serf.UserEvent) (s : Service) :
  trace (clusterEventLoop env (map (λ e, recv_events (serf.User e)) events) s)
  = flat_map (event_output env s) events.
Proof.
  induction events as [|e rest IH]; [reflexivity|].
  cbn [map flat_map].
  rewrite (clusterEventLoop_step env _ _ s s _ (handleEvent_User_run e s)).
  rewrite handleEvent_User_run. unfold then_run. simpl. by rewrite IH.
Qed.

End EventLoop.

Section Lifecycle.

Variable env : Collaborators.

(** The body of [Listen] never closes the channel and never exits. *)
Lemma Listen_body_keeps_channel (s : Service) :
  Closing (final (Listen_body env s)) = Closing s
  ∧ ∀ c, outcome (Listen_body env s) ≠ Exited c.
Proof.
  destruct (config.Cluster (Config s)) as [cl|] eqn:Hcl.
  - destruct (serf.Tags (serf_DefaultConfig env)) as [tags|] eqn:Htags.
    + rewrite (Listen_body_run env cl tags s Hcl Htags).
      destruct (Create_result env _); [by split|].
      destruct (ServeAsync_result env _); [by split|].
      destruct (listener_New_result env _); by split.
    + rewrite (Listen_body_nil_tags env cl s Hcl Htags). by split.
  - rewrite (Listen_body_nil env s Hcl). by split.
Qed.

(** With a cluster block, the body records the node name of
    [clusterConfig], whichever way it ends. *)
Lemma Listen_body_name (cl : config.ClusterConfig) (s : Service) :
  config.Cluster (Config s) = Some cl →
  Name (final (Listen_body env s)) = node_name_of env cl.
Proof.
  intros Hcl. destruct (serf.Tags (serf_DefaultConfig env)) as [tags|] eqn:Htags.
  - rewrite (Listen_body_run env cl tags s Hcl Htags).
    destruct (Create_result env _); [reflexivity|].
    destruct (ServeAsync_result env _); [reflexivity|].
    destruct (listener_New_result env _); reflexivity.
  - by rewrite (Listen_body_nil_tags env cl s Hcl Htags).
Qed.

(** [Close] leaves the name alone. *)
Lemma Close_name (s : Service) : Name (final (Close s)) = Name s.
Proof. rewrite Close_run. cbn [final]. by destruct (Closing s). Qed.

(** [Listen] leaves the channel closed when it found it open. *)
Lemma Listen_closing (s : Service) :
  Closing s = ChanOpen → Closing (final (Listen env s)) = ChanClosed.
Proof.
  intros Hopen. destruct (Listen_body_keeps_channel s) as [Hch Hne].
  rewrite Listen_defer, (defer_Close _ _ Hne). cbn [final].
  rewrite Close_open by congruence. reflexivity.
Qed.

(** With a cluster block and the default configuration of the serf
    library, whose map of tags is nil, [clusterConfig] returns no
    configuration: it records the node name in the service and then panics
    on the write of the route tag. Nothing else of the service changes. *)
Theorem clusterConfig_nil_tags_panics
    (cfg : config.Config) (cl : config.ClusterConfig) (s : Service) :
  config.Cluster cfg = Some cl →
  serf.Tags (serf_DefaultConfig env) = None →
  final (clusterConfig env cfg s) = set_name (node_name_of env cl) s
  ∧ outcome (clusterConfig env cfg s) = Panicked assignment_to_nil_map.
Proof.
  intros Hcl Htags. by rewrite (clusterConfig_nil_tags env cfg cl s Hcl Htags).
Qed.


(** With a cluster block and the default configuration of the serf
    library, whose map of tags is nil, [Listen] never creates the cluster:
    it hooks the signals and panics in [clusterConfig] on the write of the
    route tag, with the node name recorded; the deferred [Close] runs and
    closes the channel, and nothing is created, joined or served. *)
Theorem Listen_nil_tags_panics (cl : config.ClusterConfig) (s : Service) :
  config.Cluster (Config s) = Some cl →
  Closing s = ChanOpen →
  serf.Tags (serf_DefaultConfig env) = None →
  Listen env s
  = {| trace := [signal_Notify [SIGINT; SIGTERM]; go go_signalLoop]
                ++ close_calls s;
       final := set_Closing ChanClosed (set_name (node_name_of env cl) s);
       outcome := Panicked assignment_to_nil_map |}.
Proof.
  intros Hcl Hopen Htags. rewrite Listen_defer. unfold defer.
  rewrite (Listen_body_nil_tags env cl s Hcl Htags). cbn [outcome final trace].
  rewrite Close_open by exact Hopen. reflexivity.
Qed.





(** However [Listen] ends, by a return or by a panic, and whatever the
    collaborators answer, it has run [Close]: started on an open channel it
    never exits the process, its last call is the close of the channel and
    it leaves the channel closed. *)
Theorem Listen_always_closes (s : Service) :
  Closing s = ChanOpen →
  Closing (final (Listen env s)) = ChanClosed
  ∧ (∃ t : list Effect, trace (Listen env s) = (t ++ [close_Closing])%list)
  ∧ ∀ c, outcome (Listen env s) ≠ Exited c.
Proof.
  intros Hopen. split; [by apply Listen_closing|].
  destruct (Listen_body_keeps_channel s) as [Hch Hne].
  assert (Hopen' : Closing (final (Listen_body env s)) = ChanOpen) by congruence.
  rewrite Listen_defer, (defer_Close _ _ Hne).
  rewrite (Close_open _ Hopen'). cbn [outcome final trace]. split.
  - unfold close_calls. eexists.
    rewrite app_comm_cons, (app_assoc (trace _)). reflexivity.
  - exact Hne.
Qed.

(** With a cluster block, [Listen] leaves as the name of the service the
    configured node name, or the fingerprint followed by the gossip port
    when none is configured, whichever way it ends: by serving, by the
    error of [serf.Create], or by a panic, that of the nil map of tags
    included. *)
Theorem Listen_records_node_name (cl : config.ClusterConfig) (s : Service) :
  config.Cluster (Config s) = Some cl →
  Name (final (Listen env s))
  = (if decide (config.NodeName cl = "")
     then address_Fingerprint env +:+ itoa (config.Gossip cl)
     else config.NodeName cl).
Proof.
  intros Hcl. destruct (Listen_body_keeps_channel s) as [_ Hne].
  rewrite Listen_defer, (defer_Close _ _ Hne). cbn [final].
  rewrite Close_name. exact (Listen_body_name cl s Hcl).
Qed.

End Lifecycle.

Section Signals.

Variable env : Collaborators.

(** What [OnSignal] logs for [sig]. *)
Lemma onTermination_run (sig : Signal) (s : Service) :
  onTermination env sig s
  = {| trace := logging_LogAction "service"
                  ("received signal " +:+ Signal_String env sig +:+ ", exiting...")
                :: trace (Close s);
       final := final (Close s);
       outcome := match outcome (Close s) with
                  | Returned _ => Exited 0
                  | Panicked p => Panicked p
                  | Exited c => Exited c
                  end |}.
Proof.
  unfold onTermination.
  rewrite (bind_returned (emit _) _ s s [_] tt) by reflexivity.
  unfold mbind, Go_bind, os_Exit.
  destruct (outcome (Close s)); cbn [trace final outcome app];
    by rewrite ?app_nil_r.
Qed.

Lemma OnSignal_terminating (sig : Signal) (s : Service) :
  terminating sig → OnSignal env sig s = onTermination env sig s.
Proof.
  intros [-> | ->]; unfold OnSignal.
  - destruct (decide (SIGINT = SIGTERM)); [discriminate|].
    destruct (decide (SIGINT = SIGINT)); [reflexivity|contradiction].
  - destruct (decide (SIGTERM = SIGTERM)); [reflexivity|contradiction].
Qed.

(** [SIGINT] and [SIGTERM] are handled alike: on a service whose channel
    is open, [OnSignal] logs the signal by name, runs [Close] (flush, leave
    and shutdown when there is a cluster, close of the channel) and exits
    the process with status 0. *)
Theorem OnSignal_terminates (sig : Signal) (s : Service) :
  terminating sig →
  Closing s = ChanOpen →
  OnSignal env sig s
  = {| trace := logging_LogAction "service"
                  ("received signal " +:+ Signal_String env sig +:+ ", exiting...")
                :: close_calls s;
       final := set_Closing ChanClosed s;
       outcome := Exited 0 |}.
Proof.
  intros Hsig Hopen.
  rewrite (OnSignal_terminating sig s Hsig), onTermination_run.
  rewrite (Close_open s Hopen). reflexivity.
Qed.

(** A termination signal that arrives once [Listen] has ended does not
    exit the process: [Listen] has closed the channel, the [Close] of
    [OnSignal] panics on it, and [os.Exit] is not reached. *)
Theorem OnSignal_after_Listen_panics (sig : Signal) (s : Service) :
  terminating sig →
  Closing s = ChanOpen →
  outcome (OnSignal env sig (final (Listen env s)))
  = Panicked close_of_closed_channel.
Proof.
  intros Hsig Hopen.
  rewrite (OnSignal_terminating sig _ Hsig), onTermination_run.
  rewrite (Close_closed _ (Listen_closing env s Hopen)). reflexivity.
Qed.

(** The signal loop passes over every signal that is neither [SIGINT] nor
    [SIGTERM] and ends at the first that is one of them: the loop on the
    whole sequence runs as [OnSignal] on that signal alone, and the signals
    behind it are never handled. *)
Theorem signalLoop_first_termination
    (before after : list Signal) (sig : Signal) (s : Service) :
  Forall (λ x, ¬ terminating x) before →
  terminating sig →
  signalLoop env (before ++ sig :: after) s = OnSignal env sig s.
Proof.
  intros Hbefore Hsig. induction Hbefore as [|x rest Hx _ IH].
  - cbn [app signalLoop]. unfold mbind, Go_bind.
    rewrite (OnSignal_terminating sig s Hsig), onTermination_run.
    destruct (outcome (Close s)); reflexivity.
  - cbn [app signalLoop].
    assert (Hnoop : OnSignal env x s
                    = {| trace := []; final := s; outcome := Returned tt |}).
    { unfold OnSignal, terminating in *.
      destruct (decide (x = SIGTERM)); [by destruct Hx; right|].
      destruct (decide (x = SIGINT)); [by destruct Hx; left|]. reflexivity. }
    rewrite (bind_returned _ _ _ _ _ _ Hnoop). cbn [app].
    rewrite IH. symmetry. apply Run_eta.
Qed.

End Signals.

Section Transport.

Variable env : Collaborators.

(** [Join] passes the peers to the handle with [ignoreOld] set and hands
    back the error of the handle alone, dropping the number of nodes
    joined; the service is not modified. On a service without a handle it
    panics on the nil dereference. *)
Theorem Join_run (peers : list string) (s : Service) :
  match cluster s with
  | Some _ =>
      Join env peers s
      = {| trace := [serf_Join peers true]; final := s;
           outcome := Returned (snd (Join_result env peers true)) |}
  | None =>
      Join env peers s
      = {| trace := []; final := s; outcome := Panicked nil_dereference |}
  end.
Proof.
  unfold Join, cluster_Join. go_unfold. destruct (cluster s); reflexivity.
Qed.

Lemma Broadcast_encoded
    (name : string) (message : Message env) (buffer : bytes) (s : Service) :
  encoding_Encode env message = (buffer, None) →
  Broadcast env name message s
  = match cluster s with
    | Some _ =>
        {| trace := [serf_UserEvent name buffer true]; final := s;
           outcome := Returned (UserEvent_result env name buffer true) |}
    | None =>
        {| trace := []; final := s; outcome := Panicked nil_dereference |}
    end.
Proof.
  intros Henc. unfold Broadcast, cluster_UserEvent. rewrite Henc. go_unfold.
  destruct (cluster s); reflexivity.
Qed.

(** [Broadcast] never modifies the service. When the message encodes, a
    service with a handle sends exactly one user event, with the caller's
    name, the encoded buffer and the coalesce flag, and returns the error
    of the handle as it is; a service without a handle panics on the nil
    dereference. *)
Theorem Broadcast_run
    (name : string) (message : Message env) (buffer : bytes) (s : Service) :
  encoding_Encode env message = (buffer, None) →
  match cluster s with
  | Some _ =>
      Broadcast env name message s
      = {| trace := [serf_UserEvent name buffer true]; final := s;
           outcome := Returned (UserEvent_result env name buffer true) |}
  | None =>
      Broadcast env name message s
      = {| trace := []; final := s; outcome := Panicked nil_dereference |}
  end.
Proof.
  intros Henc. rewrite (Broadcast_encoded name message buffer s Henc).
  destruct (cluster s); reflexivity.
Qed.

(** [Close] closes the channel and writes nothing else: the configuration,
    the subscriptions, the name and the cluster handle stay as they were.
    The handle is not reset, so a [Broadcast] after [Close] still goes to
    the transport that was shut down. *)
Theorem Close_keeps_handle
    (name : string) (message : Message env) (buffer : bytes)
    (h : serf.Serf) (s : Service) :
  Closing s = ChanOpen →
  cluster s = Some h →
  encoding_Encode env message = (buffer, None) →
  final (Close s) = set_Closing ChanClosed s
  ∧ cluster (final (Close s)) = Some h
  ∧ trace ((Close ;; Broadcast env name message) s)
    = [logging_Flush; serf_Leave; serf_Shutdown; close_Closing;
       serf_UserEvent name buffer true].
Proof.
  intros Hopen Hh Henc. rewrite (Close_open s Hopen). cbn [final].
  split; [reflexivity|]. split; [exact Hh|].
  rewrite (bind_returned _ _ _ _ _ _ (Close_open s Hopen)). cbn [trace].
  rewrite (Broadcast_encoded name message buffer _ Henc).
  cbn [cluster set_Closing]. unfold close_calls. rewrite Hh. reflexivity.
Qed.

End Transport.

Section Constructor.

Variables License Cipher : Type.
Variable security_ParseLicense : string → License + error.
Variable License_Cipher : License → Cipher + error.
Variable env : Collaborators.

#[local] Abbreviation NewService' :=
  (NewService License Cipher security_ParseLicense License_Cipher env).

(** A service [NewService] hands back is the fresh one. *)
Lemma NewService_service (mux : gset string) (cfg : config.Config)
    (built : Constructed License Cipher) (err : option error) :
  result _ _ (NewService' mux cfg) = Returned (Some built, err) →
  service _ _ built = fresh cfg.
Proof.
  unfold NewService.
  destruct (decide ("/" ∈ mux)); [discriminate|].
  destruct (security_ParseLicense _) as [lic|e]; [|discriminate].
  destruct (License_Cipher lic) as [c|e]; [|discriminate].
  by intros [= <- _].
Qed.

(** On a mux that holds ["/"] the registration panics at once. *)
Lemma NewService_registered (mux : gset string) (cfg : config.Config) :
  "/" ∈ mux →
  NewService' mux cfg
  = {| setup_calls := []; registered := mux;
       result := Panicked (multiple_registrations "/") |}.
Proof.
  intros Hin. unfold NewService.
  destruct (decide ("/" ∈ mux)); [reflexivity|contradiction].
Qed.

(** After a call of [NewService] the mux holds ["/"]. *)
Lemma NewService_registers (mux : gset string) (cfg : config.Config) :
  "/" ∈ registered _ _ (NewService' mux cfg).
Proof.
  unfold NewService. destruct (decide ("/" ∈ mux)); [done|].
  destruct (security_ParseLicense _) as [lic|e]; [|set_solver].
  destruct (License_Cipher lic); set_solver.
Qed.


(** [NewService] works once per process: whatever the first call was given
    and however it ended, a second call panics in [http.HandleFunc] on the
    pattern ["/"] that is registered already, before it logs anything or
    reads the license. *)
Theorem NewService_second_call_panics
    (mux : gset string) (cfg cfg' : config.Config) :
  NewService' (registered _ _ (NewService' mux cfg)) cfg'
  = {| setup_calls := [];
       registered := registered _ _ (NewService' mux cfg);
       result := Panicked (multiple_registrations "/") |}.
Proof. apply NewService_registered, NewService_registers. Qed.

(** A service built by [NewService] from a configuration without a cluster
    block cannot be served: [Listen] on it panics on the nil dereference
    right after hooking the signals, with the channel closed by the
    deferred [Close] and no listener opened. *)
Theorem NewService_then_Listen_panics (mux : gset string) (cfg : config.Config)
    (built : Constructed License Cipher) :
  config.Cluster cfg = None →
  result _ _ (NewService' mux cfg) = Returned (Some built, None) →
  Listen env (service _ _ built)
  = {| trace := [signal_Notify [SIGINT; SIGTERM]; go go_signalLoop;
                 logging_Flush; close_Closing];
       final := set_Closing ChanClosed (fresh cfg);
       outcome := Panicked nil_dereference |}.
Proof.
  intros Hnil Hbuilt. rewrite (NewService_service mux cfg built None Hbuilt).
  rewrite Listen_defer. unfold defer.
  rewrite (Listen_body_nil env (fresh cfg) Hnil). cbn [outcome final trace].
  rewrite Close_open by reflexivity. reflexivity.
Qed.

End Constructor.

(** ** The further properties on the two-node cluster *)

Import Setup.

Lemma clusterEventLoop_skips_other_events_witness :
  Forall other_event [member_join; a_query; member_join]
  ∧ clusterEventLoop world [member_join; a_query; member_join] nodeB
    = {| trace := []; final := nodeB; outcome := Returned LoopBlocked |}.
Proof.
  assert (H : Forall other_event [member_join; a_query; member_join])
    by (repeat constructor; discriminate).
  split; [exact H|].
  exact (clusterEventLoop_skips_other_events world _ nodeB H).
Defined.

Lemma clusterEventLoop_keeps_service_witness :
  final (clusterEventLoop world
           [member_join; recv_events (serf.User (delivered "?" []));
            recv_events (serf.User (delivered "+" room1_payload));
            recv_Closing; a_query] nodeB) = nodeB
  ∧ outcome (clusterEventLoop world
               [member_join; recv_events (serf.User (delivered "?" []));
                recv_events (serf.User (delivered "+" room1_payload));
                recv_Closing; a_query] nodeB) = Returned LoopReturned.
Proof.
  apply (clusterEventLoop_keeps_service world
           [member_join; recv_events (serf.User (delivered "?" []));
            recv_events (serf.User (delivered "+" room1_payload));
            recv_Closing; a_query] nodeB).
  repeat constructor. discriminate.
Defined.

Lemma clusterConfig_nil_tags_panics_witness :
  config.Cluster private_config = Some private_block
  ∧ serf.Tags (serf_DefaultConfig world) = None
  ∧ final (clusterConfig world private_config (fresh private_config))
    = set_name "nodeC" (fresh private_config)
  ∧ outcome (clusterConfig world private_config (fresh private_config))
    = Panicked assignment_to_nil_map.
Proof.
  split; [reflexivity|]. split; [reflexivity|].
  exact (clusterConfig_nil_tags_panics world private_config private_block
           (fresh private_config) eq_refl eq_refl).
Defined.


Lemma Listen_nil_tags_panics_witness :
  config.Cluster (Config starting) = Some (cluster_block "nodeB")
  ∧ serf.Tags (serf_DefaultConfig world) = None
  ∧ Listen world starting
    = {| trace := [signal_Notify [SIGINT; SIGTERM]; go go_signalLoop;
                   logging_Flush; close_Closing];
         final := set_Closing ChanClosed (set_name "nodeB" starting);
         outcome := Panicked assignment_to_nil_map |}.
Proof.
  split; [reflexivity|]. split; [reflexivity|].
  exact (Listen_nil_tags_panics world (cluster_block "nodeB") starting
           eq_refl eq_refl eq_refl).
Defined.





Lemma Listen_always_closes_witness :
  Closing (fresh plain) = ChanOpen
  ∧ Closing (final (Listen world (fresh plain))) = ChanClosed
  ∧ (∃ t : list Effect,
       trace (Listen world (fresh plain)) = (t ++ [close_Closing])%list)
  ∧ ∀ c, outcome (Listen world (fresh plain)) ≠ Exited c.
Proof.
  split; [reflexivity|].
  exact (Listen_always_closes world (fresh plain) eq_refl).
Defined.

Lemma Listen_records_node_name_witness :
  config.Cluster (Config starting) = Some (cluster_block "nodeB")
  ∧ outcome (Listen world starting) = Panicked assignment_to_nil_map
  ∧ Name (final (Listen world starting)) = "nodeB".
Proof.
  split; [reflexivity|]. split; [reflexivity|].
  exact (Listen_records_node_name world (cluster_block "nodeB") starting eq_refl).
Defined.

Lemma OnSignal_terminates_witness :
  terminating SIGTERM
  ∧ Closing nodeB = ChanOpen
  ∧ OnSignal world SIGTERM nodeB
    = {| trace := [logging_LogAction "service"
                     "received signal terminated, exiting...";
                   logging_Flush; serf_Leave; serf_Shutdown; close_Closing];
         final := set_Closing ChanClosed nodeB;
         outcome := Exited 0 |}.
Proof.
  split; [right; reflexivity|]. split; [reflexivity|].
  exact (OnSignal_terminates world SIGTERM nodeB (or_intror eq_refl) eq_refl).
Defined.

Lemma OnSignal_after_Listen_panics_witness :
  terminating SIGINT
  ∧ Closing starting = ChanOpen
  ∧ outcome (OnSignal world SIGINT (final (Listen world starting)))
    = Panicked close_of_closed_channel.
Proof.
  split; [left; reflexivity|]. split; [reflexivity|].
  exact (OnSignal_after_Listen_panics world SIGINT starting
           (or_introl eq_refl) eq_refl).
Defined.

Lemma signalLoop_first_termination_witness :
  signalLoop world
    ([syscall_Signal 1; syscall_Signal 10] ++ SIGTERM :: [SIGINT; SIGTERM]) nodeB
  = OnSignal world SIGTERM nodeB.
Proof.
  apply (signalLoop_first_termination world
           [syscall_Signal 1; syscall_Signal 10] [SIGINT; SIGTERM] SIGTERM nodeB).
  - repeat constructor; intros [H|H]; discriminate H.
  - right. reflexivity.
Defined.

Lemma Broadcast_run_witness :
  encoding_Encode (failing None None None) chat_room1 = (room1_payload, None)
  ∧ Broadcast (failing None None None) "+" chat_room1 nodeA
    = {| trace := [serf_UserEvent "+" room1_payload true]; final := nodeA;
         outcome := Returned (Some (errorString "user event exceeds limit")) |}
  ∧ Broadcast (failing None None None) "+" chat_room1 (fresh plain)
    = {| trace := []; final := fresh plain;
         outcome := Panicked nil_dereference |}.
Proof.
  split; [reflexivity|]. split.
  - exact (Broadcast_run (failing None None None) "+" chat_room1 room1_payload
             nodeA eq_refl).
  - exact (Broadcast_run (failing None None None) "+" chat_room1 room1_payload
             (fresh plain) eq_refl).
Defined.

Lemma Close_keeps_handle_witness :
  final (Close nodeA) = set_Closing ChanClosed nodeA
  ∧ cluster (final (Close nodeA)) = cluster nodeA
  ∧ trace ((Close ;; Broadcast world "-" chat_room1) nodeA)
    = [logging_Flush; serf_Leave; serf_Shutdown; close_Closing;
       serf_UserEvent "-" room1_payload true].
Proof.
  exact (Close_keeps_handle world "-" chat_room1 room1_payload _ nodeA
           eq_refl eq_refl eq_refl).
Defined.


Lemma NewService_then_Listen_panics_witness :
  config.Cluster plain = None
  ∧ result _ _ (NewService string bytes parse derive world ∅ plain)
    = Returned (Some built_plain, None)
  ∧ Listen world (service _ _ built_plain)
    = {| trace := [signal_Notify [SIGINT; SIGTERM]; go go_signalLoop;
                   logging_Flush; close_Closing];
         final := set_Closing ChanClosed (fresh plain);
         outcome := Panicked nil_dereference |}.
Proof.
  split; [reflexivity|]. split; [reflexivity|].
  exact (NewService_then_Listen_panics string bytes parse derive world ∅ plain
           built_plain eq_refl eq_refl).
Defined.
